(** * The altair-plot documentation directives (doc/sphinxext/altair_ext/altairplot.py)

    A shallow embedding of the two directives, the purge hook and the two
    visitors of the extension, followed by the properties established for
    them.  Python strings are [string], lists are [list], the directive
    options and the files of the output tree are finite maps, and the build
    environment and the translator are threaded explicitly. *)

From Stdlib Require Import Ascii.
From stdpp Require Import gmap strings list fin_maps pretty sorting.

Set Warnings "-register-all".

(** ** Strings and paths *)

Module Str.

  (** The line feed and the double quote, as one-character strings. *)
Definition nl : string := String (ascii_of_nat 10) EmptyString.
Definition dq : string := String (ascii_of_nat 34) EmptyString.

  (** [sep.join(parts)] *)
Definition join (sep : string) (parts : list string) : string :=
    String.concat sep parts.

  (** [s.replace(a, b)] for one-character [a] and [b] *)
Fixpoint replace_char (a b : ascii) (s : string) : string :=
    match s with
    | EmptyString => EmptyString
    | String c r =>
        String (if Ascii.eqb c a then b else c) (replace_char a b r)
    end.

  (** [c in s] *)
Fixpoint mem (c : ascii) (s : string) : bool :=
    match s with
    | EmptyString => false
    | String x r => Ascii.eqb x c || mem c r
    end.

  (** Python truth value of a string: non-empty. *)
Definition truthy (s : string) : bool :=
    match s with EmptyString => false | String _ _ => true end.

  (** [s.startswith(c)] and [s.endswith(c)] for a character [c] *)
Definition starts_with (c : ascii) (s : string) : bool :=
    match s with EmptyString => false | String x _ => Ascii.eqb x c end.

Fixpoint ends_with (c : ascii) (s : string) : bool :=
    match s with
    | EmptyString => false
    | String x EmptyString => Ascii.eqb x c
    | String _ r => ends_with c r
    end.

End Str.

Module PosixPath.

Definition sep : ascii := "/"%char.

  (** [p[p.rfind('/') + 1:]] *)
Fixpoint basename (p : string) : string :=
    match p with
    | EmptyString => EmptyString
    | String c r =>
        if Str.mem sep r then basename r
        else if Ascii.eqb c sep then r else p
    end.

  (** [p[:p.rfind('/') + 1]] *)
Fixpoint head_of (p : string) : string :=
    match p with
    | EmptyString => EmptyString
    | String c r =>
        if Str.mem sep p then String c (head_of r) else EmptyString
    end.

Fixpoint all_sep (s : string) : bool :=
    match s with
    | EmptyString => true
    | String c r => Ascii.eqb c sep && all_sep r
    end.

  (** [s.rstrip('/')] *)
Fixpoint rstrip_sep (s : string) : string :=
    match s with
    | EmptyString => EmptyString
    | String c r =>
        match rstrip_sep r with
        | EmptyString => if Ascii.eqb c sep then EmptyString else String c EmptyString
        | r' => String c r'
        end
    end.

  (** [os.path.dirname]: the head up to the last separator, with the
      trailing separators removed unless the head is made of separators
      only. *)
Definition dirname (p : string) : string :=
    let head := head_of p in
    if Str.truthy head && negb (all_sep head) then rstrip_sep head else head.

  (** [os.path.join(a, b)] *)
Definition join (a b : string) : string :=
    if Str.starts_with sep b then b
    else if negb (Str.truthy a) || Str.ends_with sep a then a +:+ b
    else a +:+ String sep b.

End PosixPath.

(** ** Document nodes *)

(** The attributes the plot directive stores on an [altair_plot] node.
    [alt] is present only when the option was given. *)
Record altair_plot : Type := mk_altair_plot {
  target_id : string;
  div_id : string;
  code : string;
  setupcode : string;
  relpath : string;
  rst_source : string;
  rst_lineno : nat;
  alt : option string
}.

(** The nodes the directives build: [nodes.target(rawsource, text, ids=...)],
    [nodes.literal_block(rawsource, text)] with its [language] attribute,
    and the [altair_plot] element. *)
Inductive node : Type :=
  | target (rawsource text : string) (ids : list string)
  | literal_block (rawsource text : string) (language : option string)
  | altair_plot_node (attrs : altair_plot).

(** The plot descriptors among a list of nodes, in order. *)
Definition descriptors (ns : list node) : list altair_plot :=
  omap (fun n => match n with altair_plot_node p => Some p | _ => None end) ns.

(** ** The build environment *)

(** One item of [env.altair_plot_setup]. *)
Record setup_item : Type := mk_setup_item {
  item_docname : string;
  item_lineno : nat;
  item_code : string;
  item_target : node
}.

(** The part of the host's build environment the extension reads and
    writes.  [altair_plot_setup] is [None] while the attribute has not been
    set ([hasattr] is false). *)
Record BuildEnvironment : Type := mk_env {
  altair_plot_setup : option (list setup_item);
  docname : string;
  srcdir : string;
  serialnos : gmap string nat
}.

(** Modelled from the spec: the host's [env.new_serialno(category)], which is
    not part of this repository; the spec has it hand out a monotonically
    increasing per-build sequence number.  It returns the current number of
    the category and advances it by one. *)
Definition new_serialno (category : string) (env : BuildEnvironment)
  : nat * BuildEnvironment :=
  let cur := default 0 (serialnos env !! category) in
  (cur, mk_env (altair_plot_setup env) (docname env) (srcdir env)
               (<[category := S cur]> (serialnos env))).

(** [getattr(env, 'altair_plot_setup', [])] *)
Definition getattr_setup (env : BuildEnvironment) : list setup_item :=
  default [] (altair_plot_setup env).

(** A directive instance as the host hands it to [run]: its content lines,
    its line number, its options after conversion by [option_spec] (a flag
    option carries no text, [alt] keeps its text unchanged), and the
    [source] of the document being read. *)
Record Directive : Type := mk_directive {
  content : list string;
  lineno : nat;
  options : gmap string string;
  document_source : string
}.

(** ** The setup directive and the purge hook *)

(** [AltairPlotSetupDirective.run] *)
Definition AltairPlotSetupDirective_run (self : Directive) (env : BuildEnvironment)
  : list node * BuildEnvironment :=
  let '(serialno, env) := new_serialno "altair-plot" env in
  let targetid := "altair-plot-" +:+ pretty serialno in
  let targetnode := target "" "" [targetid] in
  let code := Str.join Str.nl (content self) in
  let items := getattr_setup env in
  let env := mk_env
    (Some (items ++ [mk_setup_item (docname env) (lineno self) code targetnode]))
    (docname env) (srcdir env) (serialnos env) in
  ([targetnode], env).

(** [purge_altair_plot_setup]; the [app] argument is not used. *)
Definition purge_altair_plot_setup (env : BuildEnvironment) (doc : string)
  : BuildEnvironment :=
  match altair_plot_setup env with
  | None => env
  | Some items =>
      mk_env (Some (filter (fun item => item_docname item ≠ doc) items))
             (docname env) (srcdir env) (serialnos env)
  end.

(** ** The plot directive *)

Section PlotDirective.

  (** [os.path.relpath(path, start)] of the standard library, which depends
      on the working directory of the build; it is kept abstract. *)
Variable os_path_relpath : string -> string -> string.

  (** Lines 90-92 of [AltairPlotDirective.run], for the document [doc]: the
      codes of the items recorded for [doc], joined by line feeds. *)
Definition setup_code_for (doc : string) (env : BuildEnvironment) : string :=
    Str.join Str.nl
      (item_code <$> filter (fun item => item_docname item = doc) (getattr_setup env)).

  (** [AltairPlotDirective.run] *)
Definition AltairPlotDirective_run (self : Directive) (env : BuildEnvironment)
    : list node * BuildEnvironment :=
    let show_code := bool_decide ("hide-code" ∉ dom (options self)) in
    let code_below := bool_decide ("code-below" ∈ dom (options self)) in
    let setupcode := setup_code_for (docname env) env in
    let code := Str.join Str.nl (content self) in
    let source_literal := literal_block code code (Some "python") in
    let rst_source := document_source self in
    let rst_dir := PosixPath.dirname rst_source in
    let rst_filename := PosixPath.basename rst_source in
    let '(serialno, env) := new_serialno "altair-plot" env in
    let rst_base := Str.replace_char "."%char "-"%char rst_filename in
    let div_id := rst_base +:+ "-altair-plot-" +:+ pretty serialno in
    let target_id := rst_base +:+ "-altair-source-" +:+ pretty serialno in
    let target_node := target "" "" [target_id] in
    let plot_node := altair_plot_node
      {| target_id := target_id;
         div_id := div_id;
         code := code;
         setupcode := setupcode;
         relpath := os_path_relpath rst_dir (srcdir env);
         rst_source := rst_source;
         rst_lineno := lineno self;
         alt := options self !! "alt" |} in
    let result := [target_node] in
    let result := if code_below then result ++ [plot_node] else result in
    let result := if show_code then result ++ [source_literal] else result in
    let result := if negb code_below then result ++ [plot_node] else result in
    (result, env).

  (** ** The parse phase as the host drives it

      While it reads the document [doc] the host has [env.docname = doc] and
      calls [run] on each directive it meets; when a document is invalidated
      it fires [env-purge-doc], to which [purge_altair_plot_setup] is
      connected. *)
Inductive host_event : Type :=
    | read_setup (doc : string) (self : Directive)
    | read_plot (doc : string) (self : Directive)
    | purge_doc (doc : string).

Definition set_docname (doc : string) (env : BuildEnvironment) : BuildEnvironment :=
    mk_env (altair_plot_setup env) doc (srcdir env) (serialnos env).

Definition run_event (ev : host_event) (env : BuildEnvironment)
    : list node * BuildEnvironment :=
    match ev with
    | read_setup doc self => AltairPlotSetupDirective_run self (set_docname doc env)
    | read_plot doc self => AltairPlotDirective_run self (set_docname doc env)
    | purge_doc doc => ([], purge_altair_plot_setup env doc)
    end.

  (** The nodes of each event, tagged by the document they go to, and the
      environment at the end. *)
Fixpoint run_events (evs : list host_event) (env : BuildEnvironment)
    : list (string * list node) * BuildEnvironment :=
    match evs with
    | [] => ([], env)
    | ev :: evs =>
        let '(ns, env) := run_event ev env in
        let '(rest, env) := run_events evs env in
        (match ev with
         | read_setup doc _ | read_plot doc _ => (doc, ns) :: rest
         | purge_doc _ => rest
         end, env)
    end.

  (** The plot descriptors of the document [doc] in the output of a parse. *)
Definition descriptors_of (doc : string) (out : list (string * list node))
    : list altair_plot :=
    out ≫= (fun '(d, ns) => if decide (d = doc) then descriptors ns else []).

Definition all_descriptors (out : list (string * list node)) : list altair_plot :=
    out ≫= (fun '(_, ns) => descriptors ns).

  (** The codes that the setup blocks of [doc] contribute over a run of
      events, following the wording of the specification: each setup block of
      the document adds its code at the end, a purge of the document
      discards what was recorded for it, and nothing else matters. *)
Fixpoint live_setup_codes (doc : string) (codes : list string)
      (evs : list host_event) : list string :=
    match evs with
    | [] => codes
    | read_setup d self :: evs =>
        live_setup_codes doc
          (if decide (d = doc) then codes ++ [Str.join Str.nl (content self)] else codes)
          evs
    | read_plot _ _ :: evs => live_setup_codes doc codes evs
    | purge_doc d :: evs =>
        live_setup_codes doc (if decide (d = doc) then [] else codes) evs
    end.

End PlotDirective.

(** ** The render phase *)

(** What [to_dict] returns and [json.dumps] takes: nested mappings and
    sequences over scalars.  A mapping keeps its items in the order they
    were written. *)
Inductive json : Type :=
  | JNull
  | JBool (b : bool)
  | JInt (z : Z)
  | JStr (s : string)
  | JArr (items : list json)
  | JObj (members : list (string * json)).

(** The collaborators of the HTML visitor that are not of this module: the
    interpreter behind [exec], the helper [exec_then_eval] of the package's
    [utils], the [to_dict] method of whatever the plot code evaluates to, and
    [json.dumps].  [exec] is given the two name mappings and may rebind names
    in both; each of the three may raise. *)
Class Interpreter : Type := {
  namespace : Type;
  pyobject : Type;
  exception : Type;
  empty_namespace : namespace;
  py_exec : string -> namespace -> namespace -> exception + namespace * namespace;
  exec_then_eval : string -> namespace -> namespace -> exception + pyobject;
  to_dict : pyobject -> exception + json;
  json_dumps : json -> string
}.

(** The output tree: the directories that exist and the text of each
    file.  Failures of the file system itself are not modelled. *)
Record FileSystem : Type := mk_fs {
  dirs : gset string;
  files : gmap string string
}.

Module Os.

(** [os.path.exists] *)
Definition path_exists (p : string) (fs : FileSystem) : bool :=
  bool_decide (p ∈ dirs fs ∨ is_Some (files fs !! p)).

(** The directory [p] and the directories above it, nearest first. *)
Fixpoint ancestry (fuel : nat) (p : string) : list string :=
  match fuel with
  | O => []
  | S fuel =>
      if Str.truthy p && negb (PosixPath.all_sep p)
      then p :: ancestry fuel (PosixPath.dirname p)
      else []
  end.

(** [os.makedirs]: the leaf directory and every intermediate one. *)
Definition makedirs (p : string) (fs : FileSystem) : FileSystem :=
  mk_fs (dirs fs ∪ {[ p ]} ∪ list_to_set (ancestry (S (String.length p)) p)) (files fs).

(** [with open(path, 'w') as f: f.write(text)] *)
Definition write_text (path text : string) (fs : FileSystem) : FileSystem :=
  mk_fs (dirs fs) (<[path := text]> (files fs)).

End Os.

(** The translator a visitor receives as [self], with the output tree it
    writes into. *)
Record Translator : Type := mk_translator {
  body : list string;
  builder_outdir : string;
  disk : FileSystem
}.

Section Visitors.

Context `{Interpreter}.

(** What a visitor raises: [nodes.SkipNode], by which it tells the host not
    to process the node any further, or an error of the executed code. *)
Inductive raised : Type :=
  | SkipNode
  | Error (e : exception).

(** Visitors run in a state-and-exception monad over the translator. *)
Definition visit (A : Type) : Type := Translator -> (raised + A) * Translator.

#[local] Instance visit_ret : MRet visit := fun A (a : A) tr => (inr a, tr).

#[local] Instance visit_bind : MBind visit := fun A B (k : A -> visit B) (m : visit A) tr =>
  match m tr with
  | (inl r, tr) => (inl r, tr)
  | (inr a, tr) => k a tr
  end.

Definition raise {A} (r : raised) : visit A := fun tr => (inl r, tr).

(** A call into a collaborator: its result, or its exception raised. *)
Definition call {A} (r : exception + A) : visit A :=
  match r with
  | inl e => raise (Error e)
  | inr a => mret a
  end.

Definition get {A} (f : Translator -> A) : visit A := fun tr => (inr (f tr), tr).

Definition modify (f : Translator -> Translator) : visit unit :=
  fun tr => (inr tt, f tr).

Definition on_disk (f : FileSystem -> FileSystem) : visit unit :=
  modify (fun tr => mk_translator (body tr) (builder_outdir tr) (f (disk tr))).

(** [self.body.append(text)] *)
Definition body_append (text : string) : visit unit :=
  modify (fun tr => mk_translator (body tr ++ [text]) (builder_outdir tr) (disk tr)).

(** [VGL_TEMPLATE.render(div_id=..., filename=...)]: the template text with
    the two variables filled in; the engine drops the final line feed. *)
Definition VGL_TEMPLATE_render (div_id filename : string) : string :=
  Str.nl
  +:+ "<div id=" +:+ Str.dq +:+ div_id +:+ Str.dq +:+ ">" +:+ Str.nl
  +:+ "<script src=" +:+ Str.dq +:+ "https://d3js.org/d3.v3.min.js" +:+ Str.dq
  +:+ "></script>" +:+ Str.nl
  +:+ "<script src=" +:+ Str.dq +:+ "https://vega.github.io/vega/vega.js" +:+ Str.dq
  +:+ "></script>" +:+ Str.nl
  +:+ "<script src=" +:+ Str.dq +:+ "https://vega.github.io/vega-lite/vega-lite.js"
  +:+ Str.dq +:+ "></script>" +:+ Str.nl
  +:+ "<script src=" +:+ Str.dq
  +:+ "https://vega.github.io/vega-editor/vendor/vega-embed.js" +:+ Str.dq
  +:+ " charset=" +:+ Str.dq +:+ "utf-8" +:+ Str.dq +:+ "></script>" +:+ Str.nl
  +:+ "<script>" +:+ Str.nl
  +:+ "  vg.embed(" +:+ Str.dq +:+ "#" +:+ div_id +:+ Str.dq +:+ ", "
  +:+ Str.dq +:+ filename +:+ Str.dq +:+ ", function(error, result) {});" +:+ Str.nl
  +:+ "</script>" +:+ Str.nl
  +:+ "</div>".

(** The object handed to [json.dumps] for the chart specification [spec]. *)
Definition embed_object (spec : json) : json :=
  JObj [("mode", JStr "vega-lite");
        ("actions", JObj [("editor", JBool true);
                          ("source", JBool false);
                          ("export", JBool true)]);
        ("spec", spec)].

Definition dest_dir_of (outdir : string) (node : altair_plot) : string :=
  PosixPath.join outdir (relpath node).

Definition filename_of (node : altair_plot) : string := div_id node +:+ ".vl.json".

Definition dest_path_of (outdir : string) (node : altair_plot) : string :=
  PosixPath.join (dest_dir_of outdir node) (filename_of node).

(** [html_visit_altair_plot] *)
Definition html_visit_altair_plot (node : altair_plot) : visit unit :=
  let _globals := empty_namespace in
  let _locals := empty_namespace in
  '(_globals, _locals) ←
     (if Str.truthy (setupcode node)
      then call (py_exec (setupcode node) _globals _locals)
      else mret (_globals, _locals));
  chart ← call (exec_then_eval (code node) _globals _locals);
  spec ← call (to_dict chart);
  let embed_spec := json_dumps (embed_object spec) in
  outdir ← get builder_outdir;
  let dest_dir := PosixPath.join outdir (relpath node) in
  present ← get (fun tr => Os.path_exists dest_dir (disk tr));
  (if negb present then on_disk (Os.makedirs dest_dir) else mret tt);;
  let filename := div_id node +:+ ".vl.json" in
  let dest_path := PosixPath.join dest_dir filename in
  on_disk (Os.write_text dest_path embed_spec);;
  let html := VGL_TEMPLATE_render (div_id node) filename in
  body_append html;;
  raise SkipNode.

(** Modelled from the spec: the host's message lookup [_] of [sphinx.locale],
    which is not part of this repository; the spec has the placeholder
    emitted as it is written, so a message stands for itself. *)
Definition gettext_ (message : string) : string := message.

(** [template % arg] for a template with one [%s]. *)
Fixpoint percent_s (template arg : string) : string :=
  match template with
  | String "%" (String "s" rest) => arg +:+ rest
  | String c rest => String c (percent_s rest arg)
  | EmptyString => EmptyString
  end.

(** [generic_visit_altair_plot] *)
Definition generic_visit_altair_plot (node : altair_plot) : visit unit :=
  match alt node with
  | Some text => body_append (percent_s (gettext_ "[ graph: %s ]") text)
  | None => body_append (gettext_ "[ graph ]")
  end;;
  raise SkipNode.

(** The visitor [setup] registers for each builder. *)
Inductive builder_format : Type := html | latex | texinfo | text | man.

Definition visit_altair_plot (format : builder_format) : altair_plot -> visit unit :=
  match format with
  | html => html_visit_altair_plot
  | latex | texinfo | text | man => generic_visit_altair_plot
  end.

(** The host's walk over the plot nodes of a document: a visitor that
    raises [SkipNode] is done with its node, any other exception ends the
    walk and the build. *)
Fixpoint walk (format : builder_format) (nodes : list altair_plot) (tr : Translator)
  : option exception * Translator :=
  match nodes with
  | [] => (None, tr)
  | node :: nodes =>
      match visit_altair_plot format node tr with
      | (inl (Error e), tr) => (Some e, tr)
      | (_, tr) => walk format nodes tr
      end
  end.

(** The name mappings after the setup code has run in two empty ones. *)
Definition setup_result (node : altair_plot) : exception + namespace * namespace :=
  if Str.truthy (setupcode node)
  then py_exec (setupcode node) empty_namespace empty_namespace
  else inr (empty_namespace, empty_namespace).

(** The specification of the chart the plot code evaluates to. *)
Definition chart_spec (node : altair_plot) : exception + json :=
  match setup_result node with
  | inl e => inl e
  | inr (g, l) =>
      match exec_then_eval (code node) g l with
      | inl e => inl e
      | inr chart => to_dict chart
      end
  end.

(** The translator after the file of [spec] is written and the markup
    appended. *)
Definition emitted (node : altair_plot) (spec : json) (tr : Translator) : Translator :=
  let dest_dir := dest_dir_of (builder_outdir tr) node in
  let fs := if Os.path_exists dest_dir (disk tr) then disk tr
            else Os.makedirs dest_dir (disk tr) in
  mk_translator
    (body tr ++ [VGL_TEMPLATE_render (div_id node) (filename_of node)])
    (builder_outdir tr)
    (Os.write_text (dest_path_of (builder_outdir tr) node)
       (json_dumps (embed_object spec)) fs).

End Visitors.

(** ** A small interpreter to run the visitors on

    Just enough of an interpreter to evaluate the example of the
    specification: an assignment of an integer literal to [x], the expression
    [x], and the call [chart(x)] of a function that builds an object whose
    [to_dict] gives [{data: x}]. *)
Module Demo.

Inductive object : Type :=
  | PyInt (z : Z)
  | PyChart (spec : json).

Inductive error : Type :=
  | SyntaxError
  | NameError (name : string)
  | AttributeError (attr : string).

Definition bindings : Type := list (string * Z).

Fixpoint lookup_name (name : string) (ns : bindings) : option Z :=
  match ns with
  | [] => None
  | (k, v) :: ns => if String.eqb k name then Some v else lookup_name name ns
  end.

Definition exec_code (code : string) (globals locals : bindings)
  : error + bindings * bindings :=
  if String.eqb code "x = 5" then inr (globals, ("x", 5%Z) :: locals)
  else inl SyntaxError.

Definition eval_x (globals locals : bindings) : error + Z :=
  match lookup_name "x" locals with
  | Some v => inr v
  | None =>
      match lookup_name "x" globals with
      | Some v => inr v
      | None => inl (NameError "x")
      end
  end.

Definition eval_last (code : string) (globals locals : bindings)
  : error + object :=
  if String.eqb code "chart(x)" then
    match eval_x globals locals with
    | inr v => inr (PyChart (JObj [("data", JInt v)]))
    | inl e => inl e
    end
  else if String.eqb code "x" then
    match eval_x globals locals with
    | inr v => inr (PyInt v)
    | inl e => inl e
    end
  else inl SyntaxError.

Definition object_to_dict (o : object) : error + json :=
  match o with
  | PyChart spec => inr spec
  | PyInt _ => inl (AttributeError "to_dict")
  end.

(** A string literal of JSON: quotes and backslashes escaped. *)
Fixpoint escape (s : string) : string :=
  match s with
  | EmptyString => EmptyString
  | String c r =>
      if Ascii.eqb c (ascii_of_nat 34) || Ascii.eqb c (ascii_of_nat 92)
      then String (ascii_of_nat 92) (String c (escape r))
      else String c (escape r)
  end.

Definition quoted (s : string) : string := Str.dq +:+ escape s +:+ Str.dq.

(** [json.dumps] with its default separators. *)
Fixpoint dumps (j : json) : string :=
  match j with
  | JNull => "null"
  | JBool true => "true"
  | JBool false => "false"
  | JInt z => pretty z
  | JStr s => quoted s
  | JArr items => "[" +:+ Str.join ", " (List.map dumps items) +:+ "]"
  | JObj members =>
      "{" +:+ Str.join ", "
        (List.map (fun kv => match kv with
                             | (k, v) => quoted k +:+ ": " +:+ dumps v
                             end) members)
      +:+ "}"
  end.

#[export] Instance interpreter : Interpreter := {|
  namespace := bindings;
  pyobject := object;
  exception := error;
  empty_namespace := [];
  py_exec := exec_code;
  exec_then_eval := eval_last;
  to_dict := object_to_dict;
  json_dumps := dumps
|}.

(** A relative path, standing for [os.path.relpath]: the path itself when
    it is not below the start directory. *)
Fixpoint strip_prefix (start path : string) : option string :=
  match start, path with
  | EmptyString, _ => Some path
  | String a start, String b path =>
      if Ascii.eqb a b then strip_prefix start path else None
  | _, _ => None
  end.

Definition os_relpath (path start : string) : string :=
  match strip_prefix start path with
  | Some EmptyString => "."
  | Some (String "/" rest) => rest
  | _ => path
  end.

Definition env0 : BuildEnvironment := mk_env None "" "/src" ∅.

Definition setup_x : Directive := mk_directive ["x = 5"] 3 ∅ "/src/index.rst".

Definition plot_x : Directive := mk_directive ["chart(x)"] 7 ∅ "/src/index.rst".

Definition tr0 : Translator := mk_translator [] "/out" (mk_fs ∅ ∅).

(** A setup block [x = 5] followed by the plot block [chart(x)]. *)
Definition index_events : list host_event :=
  [read_setup "index" setup_x; read_plot "index" plot_x].

Definition node_x : altair_plot :=
  {| target_id := "index-rst-altair-source-1";
     div_id := "index-rst-altair-plot-1";
     code := "chart(x)";
     setupcode := "x = 5";
     relpath := ".";
     rst_source := "/src/index.rst";
     rst_lineno := 7;
     alt := None |}.

(** A block whose last line evaluates to an integer, which has no
    [to_dict]. *)
Definition node_int : altair_plot :=
  {| target_id := "index-rst-altair-source-2";
     div_id := "index-rst-altair-plot-2";
     code := "x";
     setupcode := "x = 5";
     relpath := ".";
     rst_source := "/src/index.rst";
     rst_lineno := 12;
     alt := Some "a bar chart" |}.

(** A document whose plot block comes before its setup block. *)
Definition plot_before_setup : list host_event :=
  [read_plot "index" plot_x; read_setup "index" setup_x].

End Demo.

(** ** The HTML visitor with the state of the interpreter

    [exec], [exec_then_eval] and [to_dict] run code written in the
    documentation.  Such code can read and change what the interpreter holds
    outside the two name mappings it is given: the modules that are loaded
    and their attributes, the builtins, the state of a random generator.
    Here that state is threaded through the three calls, next to the
    translator; a call gives its result, or its exception, and the state it
    leaves. *)
Class Runtime : Type := {
  rt_namespace : Type;
  rt_object : Type;
  rt_exception : Type;
  rt_state : Type;
  rt_empty : rt_namespace;
  rt_exec : string -> rt_namespace -> rt_namespace -> rt_state ->
            (rt_exception + rt_namespace * rt_namespace) * rt_state;
  rt_exec_then_eval : string -> rt_namespace -> rt_namespace -> rt_state ->
                      (rt_exception + rt_object) * rt_state;
  rt_to_dict : rt_object -> rt_state -> (rt_exception + json) * rt_state;
  rt_json_dumps : json -> string
}.

Module Stateful.

Section Visitor.

Context `{Runtime}.

(** The translator and the state of the interpreter. *)
Record Process : Type := mk_process {
  translator : Translator;
  interpreter : rt_state
}.

Inductive raised : Type :=
  | SkipNode
  | Error (e : rt_exception).

Definition visit (A : Type) : Type := Process -> (raised + A) * Process.

#[local] Instance visit_ret : MRet visit := fun A (a : A) p => (inr a, p).

#[local] Instance visit_bind : MBind visit := fun A B (k : A -> visit B) (m : visit A) p =>
  match m p with
  | (inl r, p) => (inl r, p)
  | (inr a, p) => k a p
  end.

Definition raise {A} (r : raised) : visit A := fun p => (inl r, p).

(** A call into the interpreter: it runs in the state of the interpreter
    and leaves a state, whether it returns or raises. *)
Definition call {A} (f : rt_state -> (rt_exception + A) * rt_state) : visit A :=
  fun p =>
    match f (interpreter p) with
    | (inl e, w) => (inl (Error e), mk_process (translator p) w)
    | (inr a, w) => (inr a, mk_process (translator p) w)
    end.

Definition get {A} (f : Translator -> A) : visit A :=
  fun p => (inr (f (translator p)), p).

Definition modify (f : Translator -> Translator) : visit unit :=
  fun p => (inr tt, mk_process (f (translator p)) (interpreter p)).

Definition on_disk (f : FileSystem -> FileSystem) : visit unit :=
  modify (fun tr => mk_translator (body tr) (builder_outdir tr) (f (disk tr))).

Definition body_append (markup : string) : visit unit :=
  modify (fun tr => mk_translator (body tr ++ [markup]) (builder_outdir tr) (disk tr)).

(** [html_visit_altair_plot] *)
Definition html_visit_altair_plot (node : altair_plot) : visit unit :=
  let _globals := rt_empty in
  let _locals := rt_empty in
  '(_globals, _locals) ←
     (if Str.truthy (setupcode node)
      then call (rt_exec (setupcode node) _globals _locals)
      else mret (_globals, _locals));
  chart ← call (rt_exec_then_eval (code node) _globals _locals);
  spec ← call (rt_to_dict chart);
  let embed_spec := rt_json_dumps (embed_object spec) in
  outdir ← get builder_outdir;
  let dest_dir := PosixPath.join outdir (relpath node) in
  present ← get (fun tr => Os.path_exists dest_dir (disk tr));
  (if negb present then on_disk (Os.makedirs dest_dir) else mret tt);;
  let filename := div_id node +:+ ".vl.json" in
  let dest_path := PosixPath.join dest_dir filename in
  on_disk (Os.write_text dest_path embed_spec);;
  let html := VGL_TEMPLATE_render (div_id node) filename in
  body_append html;;
  raise SkipNode.

(** The host's walk over the plot nodes of a document written as HTML. *)
Fixpoint walk (nodes : list altair_plot) (p : Process)
  : option rt_exception * Process :=
  match nodes with
  | [] => (None, p)
  | node :: nodes =>
      match html_visit_altair_plot node p with
      | (inl (Error e), p) => (Some e, p)
      | (_, p) => walk nodes p
      end
  end.

(** The specification of the chart the plot code evaluates to in the state
    [w] of the interpreter, or the exception raised, and the state left. *)
Definition chart_spec (node : altair_plot) (w : rt_state)
  : (rt_exception + json) * rt_state :=
  let '(r, w) :=
    if Str.truthy (setupcode node)
    then rt_exec (setupcode node) rt_empty rt_empty w
    else (inr (rt_empty, rt_empty), w) in
  match r with
  | inl e => (inl e, w)
  | inr (g, l) =>
      let '(r, w) := rt_exec_then_eval (code node) g l w in
      match r with
      | inl e => (inl e, w)
      | inr chart => rt_to_dict chart w
      end
  end.



End Visitor.

End Stateful.

(** The translator after the text [embed_spec] is written for [node] and the
    markup appended. *)
Definition written (node : altair_plot) (embed_spec : string) (tr : Translator)
  : Translator :=
  let dest_dir := dest_dir_of (builder_outdir tr) node in
  let fs := if Os.path_exists dest_dir (disk tr) then disk tr
            else Os.makedirs dest_dir (disk tr) in
  mk_translator
    (body tr ++ [VGL_TEMPLATE_render (div_id node) (filename_of node)])
    (builder_outdir tr)
    (Os.write_text (dest_path_of (builder_outdir tr) node) embed_spec fs).

(** An interpreter whose calls depend on the two name mappings alone, as a
    runtime with nothing in its state. *)
Definition stateless (I : Interpreter) : Runtime := {|
  rt_namespace := namespace;
  rt_object := pyobject;
  rt_exception := exception;
  rt_state := unit;
  rt_empty := empty_namespace;
  rt_exec := fun code globals locals w => (py_exec code globals locals, w);
  rt_exec_then_eval := fun code globals locals w => (exec_then_eval code globals locals, w);
  rt_to_dict := fun o w => (to_dict o, w);
  rt_json_dumps := json_dumps
|}.

(** An interpreter with one module, [shared], that every snippet sees: the
    snippets of [Demo], and besides them an assignment to the attribute [x]
    of the module, an increment of it, and a chart of it. *)
Module SharedDemo.

Definition exec_code (code : string) (globals locals : Demo.bindings)
    (shared_x : option Z)
  : (Demo.error + Demo.bindings * Demo.bindings) * option Z :=
  if String.eqb code "shared.x = 5" then (inr (globals, locals), Some 5%Z)
  else if String.eqb code "shared.x += 1" then
    match shared_x with
    | Some v => (inr (globals, locals), Some (v + 1)%Z)
    | None => (inl (Demo.AttributeError "x"), shared_x)
    end
  else (Demo.exec_code code globals locals, shared_x).

Definition eval_last (code : string) (globals locals : Demo.bindings)
    (shared_x : option Z)
  : (Demo.error + Demo.object) * option Z :=
  if String.eqb code "chart(shared.x)" then
    match shared_x with
    | Some v => (inr (Demo.PyChart (JObj [("data", JInt v)])), shared_x)
    | None => (inl (Demo.AttributeError "x"), shared_x)
    end
  else (Demo.eval_last code globals locals, shared_x).







End SharedDemo.

(** ** Vocabulary of the properties *)

(** The three nodes a plot block can give rise to. *)
Definition anchor_of (self : Directive) (env : BuildEnvironment) : node :=
  let n := default 0 (serialnos env !! "altair-plot") in
  let rst_base :=
    Str.replace_char "."%char "-"%char (PosixPath.basename (document_source self)) in
  target "" "" [rst_base +:+ "-altair-source-" +:+ pretty n].

Definition source_echo_of (self : Directive) : node :=
  let code := Str.join Str.nl (content self) in
  literal_block code code (Some "python").

Definition is_visualization (n : node) : bool :=
  match n with altair_plot_node _ => true | _ => false end.

Definition with_options (opts : gmap string string) (self : Directive) : Directive :=
  mk_directive (content self) (lineno self) opts (document_source self).

(** The codes recorded for [doc], in the order of the registry. *)
Definition own_codes (doc : string) (env : BuildEnvironment) : list string :=
  item_code <$> filter (fun item => item_docname item = doc) (getattr_setup env).

(** The events that concern the setup code of [doc]: its own setup blocks
    and its purges. *)
Definition concerns (doc : string) (ev : host_event) : bool :=
  match ev with
  | read_setup d _ | purge_doc d => bool_decide (d = doc)
  | read_plot _ _ => false
  end.

Definition tagged (ev : host_event) (ns : list node) : list (string * list node) :=
  match ev with
  | read_setup doc _ | read_plot doc _ => [(doc, ns)]
  | purge_doc _ => []
  end.

(** The characters of a decimal numeral. *)
Fixpoint dashless (s : string) : Prop :=
  match s with
  | EmptyString => True
  | String c r => c ≠ "-"%char ∧ dashless r
  end.

(** The container id of the block numbered [n] of the source file [source]. *)
Definition container_id (source : string) (n : nat) : string :=
  Str.replace_char "."%char "-"%char (PosixPath.basename source)
  +:+ "-altair-plot-" +:+ pretty n.

(** The next number of the [altair-plot] category. *)
Definition next_serial (env : BuildEnvironment) : nat :=
  default 0 (serialnos env !! "altair-plot").

(** A descriptor carries the id of the block numbered [n]. *)
Definition numbered (p : altair_plot) (n : nat) : Prop :=
  div_id p = container_id (rst_source p) n.

(** The name of the source file as it enters the ids of a plot block. *)
Definition dashed_base (source : string) : string :=
  Str.replace_char "."%char "-"%char (PosixPath.basename source).

(** The ids a node brings into the page: the ids of a target, and the id of
    the container the markup of a plot node opens. *)
Definition node_ids (n : node) : list string :=
  match n with
  | target _ _ ids => ids
  | literal_block _ _ _ => []
  | altair_plot_node p => [div_id p]
  end.

(** The placeholder of a descriptor in the formats other than HTML. *)
Definition placeholder_of (p : altair_plot) : string :=
  match alt p with
  | Some words => "[ graph: " +:+ words +:+ " ]"
  | None => "[ graph ]"
  end.

(** The lines that the setup blocks of [doc] contribute over a run of
    events, a purge of the document discarding them. *)
Fixpoint live_setup_lines (doc : string) (lines : list string)
    (evs : list host_event) : list string :=
  match evs with
  | [] => lines
  | read_setup d self :: evs =>
      live_setup_lines doc
        (if decide (d = doc) then lines ++ content self else lines) evs
  | read_plot _ _ :: evs => live_setup_lines doc lines evs
  | purge_doc d :: evs =>
      live_setup_lines doc (if decide (d = doc) then [] else lines) evs
  end.

(** Every setup block of [doc] among the events has a line of content. *)
Definition setup_blocks_nonempty (doc : string) (evs : list host_event) : Prop :=
  Forall (fun ev => match ev with
                    | read_setup d self => d = doc → content self ≠ []
                    | _ => True
                    end) evs.


(** The ids of the nodes of a parse, in order. *)
Definition all_ids (out : list (string * list node)) : list string :=
  out ≫= (fun '(_, ns) => ns ≫= node_ids).

(** An id that ends in a dash and the numeral of [n]. *)
Definition numbered_id (n : nat) (id : string) : Prop :=
  ∃ a, id = a +:+ String "-"%char (pretty n).

(** The codes of some setup blocks and the lines of the same blocks give
    the same text. *)
Definition same_text (codes lines : list string) : Prop :=
  (codes = [] ∧ lines = [])
  ∨ (codes ≠ [] ∧ lines ≠ [] ∧ Str.join Str.nl codes = Str.join Str.nl lines).

(** ** Properties *)

(** *** Node sequences of the two directives *)

Section NodeSequences.

Variable os_path_relpath : string -> string -> string.

Lemma plot_run_nodes self env :
  ∃ p, code p = Str.join Str.nl (content self) ∧
    (AltairPlotDirective_run os_path_relpath self env).1 =
      [anchor_of self env]
      ++ (if bool_decide ("code-below" ∈ dom (options self))
          then [altair_plot_node p] else [])
      ++ (if bool_decide ("hide-code" ∉ dom (options self))
          then [source_echo_of self] else [])
      ++ (if bool_decide ("code-below" ∈ dom (options self))
          then [] else [altair_plot_node p]).
Proof.
  unfold AltairPlotDirective_run, anchor_of, source_echo_of; simpl.
  eexists; split; [|by repeat case_bool_decide].
  done.
Qed.

(** C3: the plot directive returns the anchor first; with [code-below] the
    visualization comes before the source echo, without it the source echo
    comes before the visualization; with [hide-code] the source echo is
    left out of either sequence. *)
Theorem plot_run_node_order (self : Directive) (env : BuildEnvironment) :
  ∃ p, is_visualization (altair_plot_node p) = true ∧
    code p = Str.join Str.nl (content self) ∧
    (AltairPlotDirective_run os_path_relpath self env).1 =
      match bool_decide ("code-below" ∈ dom (options self)),
            bool_decide ("hide-code" ∈ dom (options self)) with
      | true, false =>
          [anchor_of self env; altair_plot_node p; source_echo_of self]
      | false, false =>
          [anchor_of self env; source_echo_of self; altair_plot_node p]
      | true, true | false, true =>
          [anchor_of self env; altair_plot_node p]
      end.
Proof.
  destruct (plot_run_nodes self env) as (p & Hcode & Hrun).
  exists p. split; [done|]. split; [done|].
  rewrite Hrun. by repeat case_bool_decide.
Qed.

(** C9: under [hide-code] the directive returns the anchor followed by the
    visualization, the same two nodes whether [code-below] is among the
    options or not. *)
Theorem hide_code_masks_code_below (self : Directive) (env : BuildEnvironment)
    (v : string) :
  "hide-code" ∈ dom (options self) →
  let below := with_options (<["code-below" := v]> (options self)) self in
  let above := with_options (delete "code-below" (options self)) self in
  (AltairPlotDirective_run os_path_relpath below env).1
    = (AltairPlotDirective_run os_path_relpath above env).1
  ∧ ∃ p, (AltairPlotDirective_run os_path_relpath below env).1
           = [anchor_of self env; altair_plot_node p].
Proof.
  intros Hhide below above.
  assert (Hb : "code-below" ∈ dom (options below)).
  { subst below; simpl. rewrite dom_insert_L.
    apply elem_of_union_l, elem_of_singleton. reflexivity. }
  assert (Ha : "code-below" ∉ dom (options above)).
  { subst above; simpl. rewrite dom_delete_L.
    intros [_ Hne]%elem_of_difference. apply Hne, elem_of_singleton. reflexivity. }
  assert (Hhb : "hide-code" ∈ dom (options below)).
  { subst below; simpl. rewrite dom_insert_L. by apply elem_of_union_r. }
  assert (Hha : "hide-code" ∈ dom (options above)).
  { subst above; simpl. rewrite dom_delete_L.
    apply elem_of_difference; split; [done|].
    rewrite elem_of_singleton. discriminate. }
  unfold AltairPlotDirective_run; simpl.
  rewrite !bool_decide_eq_true_2, !bool_decide_eq_false_2 by (by auto).
  rewrite lookup_insert_ne, lookup_delete_ne by discriminate.
  split; [reflexivity|]. eexists. reflexivity.
Qed.

End NodeSequences.

(** C9 at a block with both options. *)
Lemma hide_code_masks_code_below_witness :
  let self := mk_directive ["chart(x)"] 7 {["hide-code" := ""]} "/src/index.rst" in
  "hide-code" ∈ dom (options self) ∧
  (AltairPlotDirective_run Demo.os_relpath
     (with_options (<["code-below" := ""]> (options self)) self) Demo.env0).1
    = (AltairPlotDirective_run Demo.os_relpath
         (with_options (delete "code-below" (options self)) self) Demo.env0).1.
Proof.
  assert (H : "hide-code" ∈
    dom (options (mk_directive ["chart(x)"] 7 {["hide-code" := ""]} "/src/index.rst"))).
  { simpl. rewrite dom_singleton_L. apply elem_of_singleton. reflexivity. }
  split; [exact H|].
  exact (proj1 (hide_code_masks_code_below Demo.os_relpath _ Demo.env0 "" H)).
Defined.

Section SetupBlocks.

Context `{Interpreter}.

(** C10: the setup directive returns one node, a target with no text; the
    list holds nothing for a visitor to render, so a walk over it in any
    output format leaves the translator as it was. *)
Theorem setup_run_returns_anchor (self : Directive) (env : BuildEnvironment) :
  ∃ targetid,
    (AltairPlotSetupDirective_run self env).1 = [target "" "" [targetid]] ∧
    length (AltairPlotSetupDirective_run self env).1 = 1 ∧
    ∀ format tr,
      walk format (descriptors (AltairPlotSetupDirective_run self env).1) tr
        = (None, tr).
Proof.
  eexists. unfold AltairPlotSetupDirective_run; simpl.
  split; [reflexivity|]. split; [reflexivity|]. by intros [] tr.
Qed.

End SetupBlocks.

(** *** The registry of setup items *)

Section Registry.

Implicit Types (env : BuildEnvironment) (doc : string) (items : list setup_item).

Lemma getattr_setup_purge env doc :
  getattr_setup (purge_altair_plot_setup env doc)
    = filter (fun item => item_docname item ≠ doc) (getattr_setup env).
Proof.
  unfold purge_altair_plot_setup, getattr_setup.
  destruct (altair_plot_setup env) as [items|] eqn:Hattr; simpl; [done|].
  by rewrite Hattr.
Qed.

Lemma filter_owned_kept doc items :
  filter (fun item => item_docname item = doc)
    (filter (fun item => item_docname item ≠ doc) items) = [].
Proof.
  induction items as [|item items IH]; [done|].
  rewrite (filter_cons (fun item => item_docname item ≠ doc)).
  case_decide; [|done].
  rewrite filter_cons. by case_decide.
Qed.

Lemma filter_other_kept doc items :
  filter (fun item => item_docname item ≠ doc)
    (filter (fun item => item_docname item ≠ doc) items)
  = filter (fun item => item_docname item ≠ doc) items.
Proof.
  induction items as [|item items IH]; [done|].
  rewrite (filter_cons (fun item => item_docname item ≠ doc)).
  case_decide; [|done].
  rewrite filter_cons. case_decide; [|done]. by rewrite IH.
Qed.

(** C4: the purge keeps the items of the other documents, in their order,
    and none of the purged document; an environment without the attribute
    is returned as it is. *)
Theorem purge_removes_exactly env doc :
  getattr_setup (purge_altair_plot_setup env doc)
    = filter (fun item => item_docname item ≠ doc) (getattr_setup env)
  ∧ filter (fun item => item_docname item = doc)
      (getattr_setup (purge_altair_plot_setup env doc)) = []
  ∧ filter (fun item => item_docname item ≠ doc)
      (getattr_setup (purge_altair_plot_setup env doc))
    = filter (fun item => item_docname item ≠ doc) (getattr_setup env)
  ∧ (∀ item, item ∈ getattr_setup (purge_altair_plot_setup env doc)
       ↔ item ∈ getattr_setup env ∧ item_docname item ≠ doc)
  ∧ getattr_setup (purge_altair_plot_setup env doc) `sublist_of` getattr_setup env
  ∧ (∀ name dir serials,
       purge_altair_plot_setup (mk_env None name dir serials) doc
         = mk_env None name dir serials)
  ∧ docname (purge_altair_plot_setup env doc) = docname env
  ∧ srcdir (purge_altair_plot_setup env doc) = srcdir env
  ∧ serialnos (purge_altair_plot_setup env doc) = serialnos env.
Proof.
  rewrite getattr_setup_purge.
  split; [done|]. split; [apply filter_owned_kept|].
  split; [apply filter_other_kept|].
  split; [intros item; by rewrite list_elem_of_filter, (comm and)|].
  split; [apply sublist_filter|].
  split; [done|].
  unfold purge_altair_plot_setup. by destruct (altair_plot_setup env).
Qed.

End Registry.

(** *** Setup code of a plot block *)

Section SetupCode.

Variable os_path_relpath : string -> string -> string.

Implicit Types (env : BuildEnvironment) (doc : string) (evs : list host_event).

#[local] Abbreviation run_event := (run_event os_path_relpath).
#[local] Abbreviation run_events := (run_events os_path_relpath).

Lemma run_events_cons ev evs env :
  run_events (ev :: evs) env
    = (tagged ev (run_event ev env).1 ++ (run_events evs (run_event ev env).2).1,
       (run_events evs (run_event ev env).2).2).
Proof.
  simpl. destruct (run_event ev env) as [ns env1]; simpl.
  destruct (run_events evs env1) as [rest env2]; simpl.
  by destruct ev.
Qed.

Lemma run_events_app pre post env :
  run_events (pre ++ post) env
    = ((run_events pre env).1 ++ (run_events post (run_events pre env).2).1,
       (run_events post (run_events pre env).2).2).
Proof.
  revert env. induction pre as [|ev pre IH]; intros env.
  - simpl. by destruct (run_events post env).
  - rewrite <-app_comm_cons, !run_events_cons, IH; simpl.
    by rewrite (assoc (++)).
Qed.

Lemma run_events_cons_nodes ev evs env :
  (run_events (ev :: evs) env).1
    = tagged ev (run_event ev env).1 ++ (run_events evs (run_event ev env).2).1.
Proof. by rewrite run_events_cons. Qed.

Lemma run_events_cons_env ev evs env :
  (run_events (ev :: evs) env).2 = (run_events evs (run_event ev env).2).2.
Proof. by rewrite run_events_cons. Qed.

Lemma run_events_app_nodes pre post env :
  (run_events (pre ++ post) env).1
    = (run_events pre env).1 ++ (run_events post (run_events pre env).2).1.
Proof. by rewrite run_events_app. Qed.

Lemma run_events_app_env pre post env :
  (run_events (pre ++ post) env).2 = (run_events post (run_events pre env).2).2.
Proof. by rewrite run_events_app. Qed.

Lemma getattr_setup_plot self env :
  getattr_setup (AltairPlotDirective_run os_path_relpath self env).2 = getattr_setup env.
Proof. done. Qed.

Lemma getattr_setup_setup self env :
  ∃ item, item_docname item = docname env ∧
    item_code item = Str.join Str.nl (content self) ∧
    getattr_setup (AltairPlotSetupDirective_run self env).2 = getattr_setup env ++ [item].
Proof. eexists; split; [|split]; [| |reflexivity]; done. Qed.

Lemma filter_owned_after_purge doc d (items : list setup_item) :
  filter (fun item => item_docname item = doc)
    (filter (fun item => item_docname item ≠ d) items)
  = if decide (d = doc) then []
    else filter (fun item => item_docname item = doc) items.
Proof.
  induction items as [|item items IH]; [by case_decide|].
  rewrite (filter_cons (fun item => item_docname item ≠ d)).
  rewrite (filter_cons (fun item => item_docname item = doc) item items).
  destruct (decide (item_docname item ≠ d)) as [Hne|Heq%dec_stable].
  - rewrite filter_cons, IH.
    destruct (decide (item_docname item = doc)) as [Hdoc|Hdoc];
      destruct (decide (d = doc)) as [Hd|Hd]; congruence.
  - rewrite IH.
    destruct (decide (item_docname item = doc)) as [Hdoc|Hdoc];
      destruct (decide (d = doc)) as [Hd|Hd]; congruence.
Qed.

Lemma own_codes_purge doc d env :
  own_codes doc (purge_altair_plot_setup env d)
    = if decide (d = doc) then [] else own_codes doc env.
Proof.
  unfold own_codes. rewrite getattr_setup_purge, filter_owned_after_purge.
  by case_decide.
Qed.

Lemma own_codes_run_event doc ev env :
  own_codes doc (run_event ev env).2 = live_setup_codes doc (own_codes doc env) [ev].
Proof.
  destruct ev as [d self|d self|d].
  - destruct (getattr_setup_setup self (set_docname d env))
      as (item & Hdoc & Hcode & Hget).
    unfold own_codes.
    change (run_event (read_setup d self) env)
      with (AltairPlotSetupDirective_run self (set_docname d env)).
    rewrite Hget.
    change (getattr_setup (set_docname d env)) with (getattr_setup env).
    rewrite filter_app, fmap_app, filter_cons, filter_nil.
    simpl in Hdoc. rewrite Hdoc. simpl.
    case_decide; simpl; [by rewrite Hcode|by rewrite (right_id [] (++))].
  - done.
  - apply own_codes_purge.
Qed.

Lemma live_setup_codes_app doc codes pre post :
  live_setup_codes doc codes (pre ++ post)
    = live_setup_codes doc (live_setup_codes doc codes pre) post.
Proof.
  revert codes. induction pre as [|[d self|d self|d] pre IH]; intros codes; simpl; auto.
Qed.

(** The registry follows the setup blocks and purges of each document. *)
Lemma own_codes_run_events doc evs env :
  own_codes doc (run_events evs env).2 = live_setup_codes doc (own_codes doc env) evs.
Proof.
  revert env. induction evs as [|ev evs IH]; intros env; [done|].
  rewrite run_events_cons_env, IH, own_codes_run_event.
  by rewrite <-live_setup_codes_app.
Qed.

(** Events of other documents, and plot blocks, do not count. *)
Lemma live_setup_codes_concerns doc codes evs :
  live_setup_codes doc codes evs
    = live_setup_codes doc codes (filter (fun ev => concerns doc ev = true) evs).
Proof.
  revert codes. induction evs as [|ev evs IH]; intros codes; [done|].
  rewrite filter_cons. destruct (decide (concerns doc ev = true)) as [Hc|Hc].
  - destruct ev as [d self|d self|d]; simpl in Hc |- *;
      try discriminate; apply bool_decide_eq_true in Hc;
      rewrite !decide_True by done; apply IH.
  - destruct ev as [d self|d self|d]; simpl in Hc |- *; try apply IH;
      rewrite bool_decide_eq_true in Hc;
      rewrite decide_False by done; apply IH.
Qed.

Lemma all_descriptors_app (out1 out2 : list (string * list node)) :
  all_descriptors (out1 ++ out2) = all_descriptors out1 ++ all_descriptors out2.
Proof. apply bind_app. Qed.

Lemma all_descriptors_tagged ev ns :
  all_descriptors (tagged ev ns)
    = match ev with purge_doc _ => [] | _ => descriptors ns end.
Proof.
  unfold all_descriptors.
  destruct ev; simpl; by rewrite ?(right_id [] (++)).
Qed.

(** The one descriptor of a plot block. *)
Lemma descriptors_plot_run self env :
  ∃ p, descriptors (AltairPlotDirective_run os_path_relpath self env).1 = [p]
    ∧ setupcode p = setup_code_for (docname env) env
    ∧ rst_source p = document_source self
    ∧ div_id p =
        Str.replace_char "."%char "-"%char (PosixPath.basename (document_source self))
        +:+ "-altair-plot-" +:+ pretty (default 0 (serialnos env !! "altair-plot")).
Proof.
  unfold AltairPlotDirective_run; simpl.
  eexists; split; [by repeat case_bool_decide|]. done.
Qed.

(** C1, amended: in a parse that meets the plot block after the events [pre]
    and goes on with the events [post], the block gives one descriptor whose
    setup code is the codes of the setup blocks of its own document, met
    before the block and not purged since, joined by line feeds in the order
    they were met, each as often as it was met; the events of other
    documents, and whatever comes after the block, have no part in it. *)
Theorem setup_code_of_plot_block pre doc self post env :
  ∃ p,
    all_descriptors (run_events (pre ++ read_plot doc self :: post) env).1
      = all_descriptors (run_events pre env).1 ++ p ::
        all_descriptors
          (run_events post (run_event (read_plot doc self) (run_events pre env).2).2).1
    ∧ setupcode p = Str.join Str.nl (live_setup_codes doc (own_codes doc env) pre)
    ∧ live_setup_codes doc (own_codes doc env) pre
      = live_setup_codes doc (own_codes doc env)
          (filter (fun ev => concerns doc ev = true) pre)
    ∧ setupcode p = setup_code_for doc (run_events pre env).2.
Proof.
  destruct (descriptors_plot_run self (set_docname doc (run_events pre env).2))
    as (p & Hp & Hsetup & _).
  exists p. rewrite run_events_app_nodes, run_events_cons_nodes.
  rewrite !all_descriptors_app, all_descriptors_tagged.
  change (run_event (read_plot doc self) (run_events pre env).2)
    with (AltairPlotDirective_run os_path_relpath self
            (set_docname doc (run_events pre env).2)).
  rewrite Hp. split; [done|].
  assert (Hcode : setupcode p = setup_code_for doc (run_events pre env).2)
    by (by rewrite Hsetup).
  split; [|split; [apply live_setup_codes_concerns|done]].
  rewrite Hcode. unfold setup_code_for. f_equal. apply own_codes_run_events.
Qed.

End SetupCode.

(** C1 as stated fails: when the plot block of [plot_before_setup] is
    rendered the registry holds the setup block of its document, and the
    descriptor, built when the block was read, has an empty setup code. *)
Lemma setup_code_at_render_counterexample :
  ¬ (∀ p,
       p ∈ descriptors_of "index"
             (run_events Demo.os_relpath Demo.plot_before_setup Demo.env0).1 →
       setupcode p
         = setup_code_for "index" (run_events Demo.os_relpath Demo.plot_before_setup Demo.env0).2).
Proof.
  intros Hall.
  pose proof (Hall (mk_altair_plot "index-rst-altair-source-0" "index-rst-altair-plot-0"
                      "chart(x)" "" "." "/src/index.rst" 7 None)) as Hp.
  assert (Hin : mk_altair_plot "index-rst-altair-source-0" "index-rst-altair-plot-0"
                  "chart(x)" "" "." "/src/index.rst" 7 None
                ∈ descriptors_of "index"
                    (run_events Demo.os_relpath Demo.plot_before_setup Demo.env0).1).
  { vm_compute. apply list_elem_of_here. }
  specialize (Hp Hin). vm_compute in Hp. discriminate Hp.
Qed.

(** *** Container ids *)

Section Decimal.

Lemma append_cons (c : ascii) (s t : string) :
  String c s +:+ t = String c (s +:+ t).
Proof. reflexivity. Qed.

Lemma append_assoc (s t u : string) : (s +:+ t) +:+ u = s +:+ (t +:+ u).
Proof.
  induction s as [|c s IH]; [reflexivity|].
  by rewrite !append_cons, IH.
Qed.

Lemma dashless_digit (x : N) : pretty_N_char x ≠ "-"%char.
Proof. unfold pretty_N_char. by repeat case_match. Qed.

Lemma dashless_pretty_N_go (x : N) (s : string) :
  dashless s → dashless (pretty_N_go x s).
Proof.
  revert s. induction (N.lt_wf_0 x) as [x _ IH]; intros s Hs.
  assert (x = 0 ∨ 0 < x)%N as [->|Hpos] by lia.
  - by rewrite pretty_N_go_0.
  - rewrite pretty_N_go_step by done. apply IH.
    + by apply N.div_lt.
    + split; [apply dashless_digit|done].
Qed.

Lemma dashless_pretty (n : nat) : dashless (pretty n).
Proof.
  unfold pretty, pretty_nat, pretty, pretty_N.
  case_decide; [by repeat split|].
  by apply dashless_pretty_N_go.
Qed.

(** A text is cut in one way only at its last dash. *)
Lemma last_dash_unique (a b s t : string) :
  dashless s → dashless t →
  a +:+ String "-" s = b +:+ String "-" t → a = b ∧ s = t.
Proof.
  intros Hs Ht. revert b.
  induction a as [|c a IH]; intros [|d b] Heq.
  - by injection Heq as ->.
  - injection Heq as <- ->. exfalso. clear -Hs.
    induction b as [|e b IH]; [by destruct Hs|]. destruct Hs as [_ Hs]. auto.
  - injection Heq as -> <-. exfalso. clear -Ht.
    induction a as [|e a IH]; [by destruct Ht|]. destruct Ht as [_ Ht]. auto.
  - rewrite !append_cons in Heq. injection Heq as -> Heq.
    destruct (IH _ Heq) as [-> ->]. done.
Qed.

Lemma container_id_serial (source1 source2 : string) (n1 n2 : nat) :
  container_id source1 n1 = container_id source2 n2 → n1 = n2.
Proof.
  unfold container_id. intros Heq.
  change "-altair-plot-" with ("-altair-plot" +:+ "-") in Heq.
  rewrite <-!append_assoc in Heq.
  rewrite !(append_assoc _ "-") in Heq.
  apply last_dash_unique in Heq as [_ Heq]; [|apply dashless_pretty..].
  by apply (inj pretty) in Heq.
Qed.

End Decimal.

Section ContainerIds.

Variable os_path_relpath : string -> string -> string.

Implicit Types (env : BuildEnvironment) (evs : list host_event).

#[local] Abbreviation run_event := (run_event os_path_relpath).
#[local] Abbreviation run_events := (run_events os_path_relpath).

Lemma next_serial_run_event ev env :
  next_serial (run_event ev env).2
    = match ev with purge_doc _ => next_serial env | _ => S (next_serial env) end.
Proof.
  destruct ev as [d self|d self|d]; unfold next_serial; simpl.
  - by rewrite lookup_insert_eq.
  - by rewrite lookup_insert_eq.
  - unfold purge_altair_plot_setup. by destruct (altair_plot_setup env).
Qed.

Lemma next_serial_run_events evs env :
  next_serial env ≤ next_serial (run_events evs env).2.
Proof.
  revert env. induction evs as [|ev evs IH]; intros env; [done|].
  rewrite run_events_cons_env. etrans; [|apply IH].
  rewrite next_serial_run_event. destruct ev; lia.
Qed.

Lemma descriptors_run_event ev env :
  match ev with
  | read_plot _ _ =>
      ∃ p, descriptors (run_event ev env).1 = [p] ∧ numbered p (next_serial env)
  | _ => descriptors (run_event ev env).1 = []
  end.
Proof.
  destruct ev as [d self|d self|d]; [done| |done].
  destruct (descriptors_plot_run os_path_relpath self (set_docname d env))
    as (p & Hp & _ & Hsrc & Hid).
  exists p. split; [done|]. unfold numbered, container_id. by rewrite Hsrc, Hid.
Qed.

(** The blocks of a parse are numbered upwards from the number the parse
    starts at. *)
Lemma serials_of_run_events evs env :
  ∃ serials,
    Forall2 numbered (all_descriptors (run_events evs env).1) serials
    ∧ StronglySorted lt serials
    ∧ Forall (fun n => next_serial env ≤ n < next_serial (run_events evs env).2) serials.
Proof.
  revert env. induction evs as [|ev evs IH]; intros env.
  { exists []. by repeat constructor. }
  destruct (IH (run_event ev env).2) as (serials & Hnum & Hsorted & Hrange).
  rewrite run_events_cons_nodes, run_events_cons_env.
  rewrite all_descriptors_app, all_descriptors_tagged.
  pose proof (descriptors_run_event ev env) as Hev.
  pose proof (next_serial_run_event ev env) as Hnext.
  destruct ev as [d self|d self|d].
  - exists serials. rewrite Hev. split; [done|]. split; [done|].
    eapply Forall_impl; [exact Hrange|]. intros n Hn. cbv beta in *. rewrite Hnext in Hn. lia.
  - destruct Hev as (p & -> & Hp).
    exists (next_serial env :: serials). split; [by constructor|]. split.
    + constructor; [done|]. eapply Forall_impl; [exact Hrange|].
      intros n Hn. cbv beta in *. rewrite Hnext in Hn. lia.
    + constructor.
      * pose proof (next_serial_run_events evs (run_event (read_plot d self) env).2).
        lia.
      * eapply Forall_impl; [exact Hrange|]. intros n Hn. cbv beta in *. rewrite Hnext in Hn. lia.
  - exists serials. split; [done|]. split; [done|].
    eapply Forall_impl; [exact Hrange|]. intros n Hn. cbv beta in *. rewrite Hnext in Hn. lia.
Qed.

Lemma numbered_distinct (ps : list altair_plot) (serials : list nat) :
  Forall2 numbered ps serials → StronglySorted lt serials → NoDup (div_id <$> ps).
Proof.
  induction 1 as [|p n ps serials Hp Hps IH]; intros Hsorted; [constructor|].
  apply StronglySorted_inv in Hsorted as [Hsorted Hlt].
  csimpl. constructor; [|by apply IH].
  intros (q & Hq & Hin)%list_elem_of_fmap.
  apply list_elem_of_lookup in Hin as [i Hi].
  destruct (Forall2_lookup_l _ _ _ _ _ Hps Hi) as (m & Hm & Hqm).
  unfold numbered in Hp, Hqm. rewrite Hp, Hqm in Hq.
  apply container_id_serial in Hq. subst m.
  apply list_elem_of_lookup_2 in Hm.
  rewrite Forall_forall in Hlt. specialize (Hlt _ Hm). lia.
Qed.

(** C5: over any parse the container ids of the plot blocks are pairwise
    distinct, whatever the source files of the blocks; each id is made of the
    name of the source file of its block and the number the block was given,
    and the numbers grow from one block to the next. *)
Theorem container_ids_distinct evs env :
  NoDup (div_id <$> all_descriptors (run_events evs env).1)
  ∧ ∃ serials,
      Forall2
        (fun p n =>
           div_id p =
             Str.replace_char "."%char "-"%char (PosixPath.basename (rst_source p))
             +:+ "-altair-plot-" +:+ pretty n)
        (all_descriptors (run_events evs env).1) serials
      ∧ StronglySorted lt serials.
Proof.
  destruct (serials_of_run_events evs env) as (serials & Hnum & Hsorted & _).
  split; [by eapply numbered_distinct|]. by exists serials.
Qed.

End ContainerIds.

(** *** The visitors *)

Section VisitorProperties.

Context `{Interpreter}.

Implicit Types (node : altair_plot) (tr : Translator).

Lemma html_visit_cases node tr :
  html_visit_altair_plot node tr =
    match chart_spec node with
    | inl e => (inl (Error e), tr)
    | inr spec => (inl SkipNode, emitted node spec tr)
    end.
Proof.
  unfold html_visit_altair_plot, chart_spec, setup_result, emitted.
  unfold mbind, visit_bind, call, get, on_disk, body_append, modify, raise, mret,
    visit_ret, dest_dir_of, dest_path_of, filename_of.
  destruct (Str.truthy (setupcode node)).
  - destruct (py_exec _ _ _) as [e|[g l]]; [done|].
    destruct (exec_then_eval _ g l) as [e|chart]; [done|].
    destruct (to_dict chart) as [e|spec]; [done|].
    simpl. by destruct (Os.path_exists _ _); destruct tr.
  - destruct (exec_then_eval _ _ _) as [e|chart]; [done|].
    destruct (to_dict chart) as [e|spec]; [done|].
    simpl. by destruct (Os.path_exists _ _); destruct tr.
Qed.

Lemma generic_visit_cases node tr :
  generic_visit_altair_plot node tr =
    (inl SkipNode,
     mk_translator
       (body tr ++ [match alt node with
                    | Some words => "[ graph: " +:+ words +:+ " ]"
                    | None => "[ graph ]"
                    end])
       (builder_outdir tr) (disk tr)).
Proof. unfold generic_visit_altair_plot. by destruct (alt node). Qed.

Lemma visit_outdir format node tr :
  builder_outdir (visit_altair_plot format node tr).2 = builder_outdir tr.
Proof.
  destruct format; simpl; rewrite ?generic_visit_cases, ?html_visit_cases; try done.
  by destruct (chart_spec node).
Qed.

Lemma walk_outdir format nodes tr :
  builder_outdir (walk format nodes tr).2 = builder_outdir tr.
Proof.
  revert tr. induction nodes as [|node nodes IH]; intros tr; [done|].
  simpl. pose proof (visit_outdir format node tr) as Hout.
  destruct (visit_altair_plot format node tr) as [[[|e]|[]] tr1];
    simpl in Hout |- *; by rewrite ?IH.
Qed.

(** Paths made of plain components. *)
Lemma truthy_append (a b : string) :
  Str.truthy b = true → Str.truthy (a +:+ b) = true.
Proof. by destruct a, b. Qed.

Lemma ends_with_append (c : ascii) (a b : string) :
  Str.truthy b = true → Str.ends_with c (a +:+ b) = Str.ends_with c b.
Proof.
  intros Hb. induction a as [|x a IH]; [done|].
  rewrite append_cons. simpl. rewrite IH.
  pose proof (truthy_append a b Hb). by destruct (a +:+ b).
Qed.

Lemma join_plain (a b : string) :
  Str.truthy a = true → Str.ends_with PosixPath.sep a = false →
  Str.starts_with PosixPath.sep b = false →
  PosixPath.join a b = a +:+ "/" +:+ b.
Proof. unfold PosixPath.join. by intros -> -> ->. Qed.

Lemma dest_path_plain (outdir : string) node :
  Str.truthy outdir = true →
  Str.ends_with PosixPath.sep outdir = false →
  Str.truthy (relpath node) = true →
  Str.starts_with PosixPath.sep (relpath node) = false →
  Str.ends_with PosixPath.sep (relpath node) = false →
  Str.starts_with PosixPath.sep (div_id node) = false →
  dest_path_of outdir node
    = outdir +:+ "/" +:+ relpath node +:+ "/" +:+ div_id node +:+ ".vl.json".
Proof.
  intros Hout Hout_end Hrel Hrel_start Hrel_end Hid.
  unfold dest_path_of, dest_dir_of, filename_of.
  rewrite (join_plain outdir) by done.
  rewrite join_plain.
  - by rewrite !append_assoc.
  - by apply truthy_append, truthy_append.
  - rewrite ends_with_append by by apply truthy_append.
    by rewrite (ends_with_append _ "/").
  - by destruct (div_id node).
Qed.

(** C2: when the plot code of a descriptor evaluates to a chart whose
    [to_dict] gives [spec], the HTML visitor ends with [SkipNode] and leaves
    at the path joined from the output directory, the relative path and
    [<div_id>.vl.json] a file holding the serialization of the object with
    the members [mode], [actions] and [spec]; whatever was at that path
    before is replaced, no other file changes, and the directory of the file
    exists afterwards, made with the directories above it when it was
    missing.  For plain path components the path reads
    [<outdir>/<relpath>/<div_id>.vl.json]. *)
Theorem html_visit_writes_spec node tr (g l : namespace) (chart : pyobject) (spec : json) :
  setup_result node = inr (g, l) →
  exec_then_eval (code node) g l = inr chart →
  to_dict chart = inr spec →
  ∃ tr',
    html_visit_altair_plot node tr = (inl SkipNode, tr')
    ∧ files (disk tr') !! dest_path_of (builder_outdir tr) node
        = Some (json_dumps
                  (JObj [("mode", JStr "vega-lite");
                         ("actions", JObj [("editor", JBool true);
                                           ("source", JBool false);
                                           ("export", JBool true)]);
                         ("spec", spec)]))
    ∧ (∀ path, path ≠ dest_path_of (builder_outdir tr) node →
         files (disk tr') !! path = files (disk tr) !! path)
    ∧ Os.path_exists (dest_dir_of (builder_outdir tr) node) (disk tr') = true
    ∧ dirs (disk tr) ⊆ dirs (disk tr')
    ∧ (Os.path_exists (dest_dir_of (builder_outdir tr) node) (disk tr) = false →
       ∀ dir, dir ∈ Os.ancestry
                      (S (String.length (dest_dir_of (builder_outdir tr) node)))
                      (dest_dir_of (builder_outdir tr) node) →
              dir ∈ dirs (disk tr'))
    ∧ (Str.truthy (builder_outdir tr) = true →
       Str.ends_with PosixPath.sep (builder_outdir tr) = false →
       Str.truthy (relpath node) = true →
       Str.starts_with PosixPath.sep (relpath node) = false →
       Str.ends_with PosixPath.sep (relpath node) = false →
       Str.starts_with PosixPath.sep (div_id node) = false →
       dest_path_of (builder_outdir tr) node
         = builder_outdir tr +:+ "/" +:+ relpath node +:+ "/"
           +:+ div_id node +:+ ".vl.json").
Proof.
  intros Hsetup Heval Hdict.
  exists (emitted node spec tr).
  rewrite html_visit_cases. unfold chart_spec. rewrite Hsetup, Heval, Hdict.
  split; [done|]. unfold emitted; simpl.
  split; [apply lookup_insert_eq|].
  split; [intros path Hpath; rewrite lookup_insert_ne by done;
          by destruct (Os.path_exists _ _)|].
  split.
  { destruct (Os.path_exists _ (disk tr)) eqn:Hex; unfold Os.path_exists in *.
    - apply bool_decide_eq_true in Hex as [Hdir|Hfile];
        apply bool_decide_eq_true; simpl; [by left|right].
      destruct (decide (dest_path_of (builder_outdir tr) node
                        = dest_dir_of (builder_outdir tr) node)) as [->|Hne].
      + rewrite lookup_insert_eq. by eexists.
      + by rewrite lookup_insert_ne.
    - apply bool_decide_eq_true; simpl. left. set_solver. }
  split; [destruct (Os.path_exists _ _); simpl; set_solver|].
  split; [|by apply dest_path_plain].
  intros -> dir Hdir. simpl. set_solver.
Qed.


(** C8: an exception of the setup code, of the plot code or of [to_dict] is
    what the HTML visitor raises, with the body and the output tree as they
    were, and it ends the walk over the document. *)
Theorem html_visit_propagates node (rest : list altair_plot) tr (e : exception) :
  setup_result node = inl e
  ∨ (∃ g l, setup_result node = inr (g, l) ∧ exec_then_eval (code node) g l = inl e)
  ∨ (∃ g l chart, setup_result node = inr (g, l)
       ∧ exec_then_eval (code node) g l = inr chart ∧ to_dict chart = inl e) →
  html_visit_altair_plot node tr = (inl (Error e), tr)
  ∧ walk html (node :: rest) tr = (Some e, tr).
Proof.
  intros Hraise.
  assert (Hspec : chart_spec node = inl e).
  { unfold chart_spec.
    destruct Hraise as [->|[(g & l & -> & ->)|(g & l & chart & -> & -> & ->)]]; done. }
  assert (Hvisit : html_visit_altair_plot node tr = (inl (Error e), tr))
    by (by rewrite html_visit_cases, Hspec).
  split; [done|]. simpl. by rewrite Hvisit.
Qed.

End VisitorProperties.

(** *** The example of the specification, run *)

Module Example.

Example parse_index :
  all_descriptors (run_events Demo.os_relpath Demo.index_events Demo.env0).1 = [Demo.node_x].
Proof. vm_compute. reflexivity. Qed.

Example setup_twice :
  setupcode <$> all_descriptors
    (run_events Demo.os_relpath
       [read_setup "index" Demo.setup_x; read_setup "other" Demo.setup_x;
        read_setup "index" Demo.setup_x; read_plot "index" Demo.plot_x]
       Demo.env0).1
  = ["x = 5" +:+ Str.nl +:+ "x = 5"].
Proof. vm_compute. reflexivity. Qed.

Example dumps_embed_object :
  Demo.dumps (embed_object (JObj [("data", JInt 5)]))
  = "{" +:+ Demo.quoted "mode" +:+ ": " +:+ Demo.quoted "vega-lite" +:+ ", "
    +:+ Demo.quoted "actions" +:+ ": {" +:+ Demo.quoted "editor" +:+ ": true, "
    +:+ Demo.quoted "source" +:+ ": false, " +:+ Demo.quoted "export" +:+ ": true}, "
    +:+ Demo.quoted "spec" +:+ ": {" +:+ Demo.quoted "data" +:+ ": 5}}".
Proof. vm_compute. reflexivity. Qed.

Example two_files_same_name :
  div_id <$> all_descriptors
    (run_events Demo.os_relpath
       [read_plot "a/index" (mk_directive ["chart(x)"] 1 ∅ "/src/a/index.rst");
        read_plot "b/index" (mk_directive ["chart(x)"] 1 ∅ "/src/b/index.rst")]
       Demo.env0).1
  = ["index-rst-altair-plot-0"; "index-rst-altair-plot-1"].
Proof. vm_compute. reflexivity. Qed.

End Example.

(** C2 at the example: the file of the chart of [chart(x)]. *)
Lemma html_visit_writes_spec_witness :
  ∃ tr',
    html_visit_altair_plot (H := Demo.interpreter) Demo.node_x Demo.tr0
      = (inl SkipNode, tr')
    ∧ files (disk tr') !! "/out/./index-rst-altair-plot-1.vl.json"
        = Some (Demo.dumps (embed_object (JObj [("data", JInt 5)]))).
Proof.
  destruct (html_visit_writes_spec (H := Demo.interpreter)
              Demo.node_x Demo.tr0 [] [("x", 5%Z)]
              (Demo.PyChart (JObj [("data", JInt 5)])) (JObj [("data", JInt 5)])
              eq_refl eq_refl eq_refl) as (tr' & Hvisit & Hfile & _).
  exists tr'. split; [exact Hvisit|exact Hfile].
Defined.


(** C8 at a block whose value has no [to_dict]. *)
Lemma html_visit_propagates_witness :
  html_visit_altair_plot (H := Demo.interpreter) Demo.node_int Demo.tr0
    = (inl (Error (H := Demo.interpreter) (Demo.AttributeError "to_dict")), Demo.tr0)
  ∧ walk (H := Demo.interpreter) html [Demo.node_int; Demo.node_x] Demo.tr0
    = (Some (Demo.AttributeError "to_dict"), Demo.tr0).
Proof.
  refine (html_visit_propagates (H := Demo.interpreter) Demo.node_int
            [Demo.node_x] Demo.tr0 (Demo.AttributeError "to_dict") _).
  right; right. exists [], [("x", 5%Z)], (Demo.PyInt 5).
  split; [reflexivity|]. split; reflexivity.
Defined.

(** ** Further properties of the directives, the purge hook and the visitors *)

(** *** The purge hook and the setup directive together *)

Section PurgeAlgebra.

Implicit Types (env : BuildEnvironment) (doc : string) (self : Directive).

Lemma filter_ne_comm (d1 d2 : string) (items : list setup_item) :
  filter (fun item => item_docname item ≠ d1)
    (filter (fun item => item_docname item ≠ d2) items)
  = filter (fun item => item_docname item ≠ d2)
      (filter (fun item => item_docname item ≠ d1) items).
Proof.
  rewrite !list_filter_filter. apply list_filter_iff. intros item. tauto.
Qed.

Lemma purge_fields env doc :
  docname (purge_altair_plot_setup env doc) = docname env
  ∧ srcdir (purge_altair_plot_setup env doc) = srcdir env
  ∧ serialnos (purge_altair_plot_setup env doc) = serialnos env
  ∧ altair_plot_setup (purge_altair_plot_setup env doc)
      = filter (fun item => item_docname item ≠ doc) <$> altair_plot_setup env.
Proof.
  unfold purge_altair_plot_setup.
  destruct (altair_plot_setup env) as [items|] eqn:Hattr; simpl; [done|].
  by rewrite Hattr.
Qed.

Lemma env_eq (env1 env2 : BuildEnvironment) :
  altair_plot_setup env1 = altair_plot_setup env2 →
  docname env1 = docname env2 →
  srcdir env1 = srcdir env2 →
  serialnos env1 = serialnos env2 →
  env1 = env2.
Proof. destruct env1, env2; simpl; by intros -> -> -> ->. Qed.

(** X1: purging a document twice is the same as purging it once, and the
    purges of two documents can be done in either order. *)
Theorem purge_idempotent_commutes env (d1 d2 : string) :
  purge_altair_plot_setup (purge_altair_plot_setup env d1) d1
    = purge_altair_plot_setup env d1
  ∧ purge_altair_plot_setup (purge_altair_plot_setup env d1) d2
    = purge_altair_plot_setup (purge_altair_plot_setup env d2) d1.
Proof.
  split; apply env_eq;
    repeat match goal with
    | |- context [docname (purge_altair_plot_setup ?e ?d)] =>
        rewrite (proj1 (purge_fields e d))
    | |- context [srcdir (purge_altair_plot_setup ?e ?d)] =>
        rewrite (proj1 (proj2 (purge_fields e d)))
    | |- context [serialnos (purge_altair_plot_setup ?e ?d)] =>
        rewrite (proj1 (proj2 (proj2 (purge_fields e d))))
    | |- context [altair_plot_setup (purge_altair_plot_setup ?e ?d)] =>
        rewrite (proj2 (proj2 (proj2 (purge_fields e d))))
    end; try done.
  - destruct (altair_plot_setup env) as [items|]; simpl; [|done].
    by rewrite filter_other_kept.
  - destruct (altair_plot_setup env) as [items|]; simpl; [|done].
    by rewrite filter_ne_comm.
Qed.

Lemma getattr_setup_recorded self env :
  getattr_setup (AltairPlotSetupDirective_run self env).2
  = getattr_setup env
    ++ [mk_setup_item (docname env) (lineno self) (Str.join Str.nl (content self))
          (target "" "" ["altair-plot-" +:+ pretty (next_serial env)])].
Proof. reflexivity. Qed.

(** X2: a setup block that is recorded and then purged with its document
    leaves the registry as the purge alone does, and a setup block of
    another document is recorded the same before or after the purge; the
    purge takes no number back. *)
Theorem purge_after_setup self env doc :
  getattr_setup
    (purge_altair_plot_setup (AltairPlotSetupDirective_run self env).2 doc)
  = (if decide (docname env = doc)
     then getattr_setup (purge_altair_plot_setup env doc)
     else getattr_setup
            (AltairPlotSetupDirective_run self (purge_altair_plot_setup env doc)).2)
  ∧ serialnos (purge_altair_plot_setup (AltairPlotSetupDirective_run self env).2 doc)
    = serialnos (AltairPlotSetupDirective_run self env).2.
Proof.
  split; [|apply purge_fields].
  rewrite !getattr_setup_recorded, !getattr_setup_purge, getattr_setup_recorded.
  rewrite filter_app, filter_cons, filter_nil. simpl.
  destruct (decide (docname env = doc)) as [Heq|Hne].
  - rewrite decide_False by (intros Hn; by apply Hn).
    by rewrite (right_id [] (++)).
  - rewrite decide_True by done. unfold next_serial.
    destruct (purge_fields env doc) as (-> & _ & -> & _). done.
Qed.

End PurgeAlgebra.

(** *** Rendering a document *)

Section Rendering.

Context `{Interpreter}.

Implicit Types (node : altair_plot) (tr : Translator).





Lemma walk_generic_cons (format : builder_format) node (nodes : list altair_plot) tr :
  format ≠ html →
  walk format (node :: nodes) tr
    = walk format nodes
        (mk_translator (body tr ++ [placeholder_of node]) (builder_outdir tr) (disk tr)).
Proof.
  intros Hformat.
  destruct format; [done|..]; cbn [walk visit_altair_plot];
    by rewrite generic_visit_cases.
Qed.

(** X5: in a format other than HTML the walk over any descriptors raises
    nothing whatever their code, appends the placeholder of each descriptor
    in the order of the list and leaves the output tree untouched. *)
Theorem generic_walk_placeholders (format : builder_format)
    (nodes : list altair_plot) tr :
  format ≠ html →
  walk format nodes tr
    = (None,
       mk_translator (body tr ++ (placeholder_of <$> nodes))
         (builder_outdir tr) (disk tr)).
Proof.
  intros Hformat. revert tr. induction nodes as [|node nodes IH]; intros tr.
  - simpl. rewrite (right_id [] (++)). by destruct tr.
  - rewrite walk_generic_cons, IH by done. simpl.
    by rewrite <-(assoc (++)).
Qed.

End Rendering.


(** X5 at the two descriptors of the example, rendered for LaTeX. *)
Lemma generic_walk_placeholders_witness :
  latex ≠ html
  ∧ walk (H := Demo.interpreter) latex [Demo.node_int; Demo.node_x] Demo.tr0
    = (None,
       mk_translator ["[ graph: a bar chart ]"; "[ graph ]"] "/out" (mk_fs ∅ ∅)).
Proof.
  assert (Hformat : latex ≠ html) by discriminate.
  split; [exact Hformat|].
  exact (generic_walk_placeholders (H := Demo.interpreter) latex
           [Demo.node_int; Demo.node_x] Demo.tr0 Hformat).
Defined.

(** *** Ids and file names of plot blocks *)

Section Names.

Lemma mem_append (c : ascii) (a b : string) :
  Str.mem c (a +:+ b) = Str.mem c a || Str.mem c b.
Proof.
  induction a as [|x a IH]; [done|].
  rewrite append_cons. simpl. rewrite IH. by destruct (Ascii.eqb x c).
Qed.

Lemma mem_pretty_N_go (c : ascii) (x : N) (s : string) :
  (∀ d, pretty_N_char d ≠ c) →
  Str.mem c s = false → Str.mem c (pretty_N_go x s) = false.
Proof.
  intros Hdigit. revert s. induction (N.lt_wf_0 x) as [x _ IH]; intros s Hs.
  assert (x = 0 ∨ 0 < x)%N as [->|Hpos] by lia.
  - by rewrite pretty_N_go_0.
  - rewrite pretty_N_go_step by done. apply IH; [by apply N.div_lt|].
    simpl. rewrite Hs, orb_false_r. apply Ascii.eqb_neq, Hdigit.
Qed.

Lemma mem_sep_pretty (n : nat) : Str.mem PosixPath.sep (pretty n) = false.
Proof.
  unfold pretty, pretty_nat, pretty, pretty_N.
  case_decide; [done|]. apply mem_pretty_N_go; [|done].
  intros d. unfold pretty_N_char, PosixPath.sep. by repeat case_match.
Qed.

Lemma mem_sep_basename (p : string) :
  Str.mem PosixPath.sep (PosixPath.basename p) = false.
Proof.
  induction p as [|c p IH]; [done|]. simpl.
  destruct (Str.mem PosixPath.sep p) eqn:Hp; [done|].
  destruct (Ascii.eqb c PosixPath.sep) eqn:Hc; [done|].
  simpl. by rewrite Hc, Hp.
Qed.

Lemma mem_sep_dashed (s : string) :
  Str.mem PosixPath.sep (Str.replace_char "."%char "-"%char s)
    = Str.mem PosixPath.sep s.
Proof.
  induction s as [|c s IH]; [done|]. simpl. rewrite IH. f_equal.
  destruct (Ascii.eqb c ".") eqn:Hc; [|done].
  apply Ascii.eqb_eq in Hc as ->. done.
Qed.

Lemma basename_plain (f : string) :
  Str.mem PosixPath.sep f = false → PosixPath.basename f = f.
Proof.
  destruct f as [|c f]; [done|]. simpl.
  destruct (Ascii.eqb c PosixPath.sep); [done|]. simpl. by intros ->.
Qed.

Lemma basename_after_sep (d f : string) :
  Str.mem PosixPath.sep f = false →
  PosixPath.basename (d +:+ String PosixPath.sep f) = f.
Proof.
  intros Hf. induction d as [|c d IH].
  - simpl. rewrite Hf. done.
  - assert (Hmem : Str.mem PosixPath.sep (d +:+ String PosixPath.sep f) = true).
    { rewrite mem_append. apply orb_true_iff. right. reflexivity. }
    rewrite append_cons. simpl. rewrite Hmem. exact IH.
Qed.

Lemma ends_with_split (c : ascii) (d : string) :
  Str.ends_with c d = true → ∃ d', d = d' +:+ String c EmptyString.
Proof.
  induction d as [|x d IH]; [done|]. simpl. destruct d as [|y d].
  - intros ->%Ascii.eqb_eq. by exists EmptyString.
  - intros [d' ->]%IH. by exists (String x d').
Qed.

(** The last component of a path joined from a directory and a plain file
    name is the file name. *)
Lemma basename_join (d f : string) :
  Str.mem PosixPath.sep f = false →
  PosixPath.basename (PosixPath.join d f) = f.
Proof.
  intros Hf. unfold PosixPath.join.
  assert (Str.starts_with PosixPath.sep f = false) as ->.
  { destruct f as [|c f]; [done|]. simpl in *. by destruct (Ascii.eqb c PosixPath.sep). }
  destruct (negb (Str.truthy d) || Str.ends_with PosixPath.sep d) eqn:Hcase.
  - apply orb_true_iff in Hcase as [Hempty|Hend].
    + destruct d; [by apply basename_plain|discriminate].
    + apply ends_with_split in Hend as [d' ->].
      rewrite append_assoc. by apply basename_after_sep.
  - by apply basename_after_sep.
Qed.

Lemma append_nil_r (s : string) : s +:+ EmptyString = s.
Proof. induction s as [|c s IH]; [done|]. by rewrite append_cons, IH. Qed.

Lemma length_append (a b : string) :
  String.length (a +:+ b) = String.length a + String.length b.
Proof. induction a as [|c a IH]; [done|]. rewrite append_cons. simpl. by rewrite IH. Qed.

Lemma append_cancel_r (a b c : string) : a +:+ c = b +:+ c → a = b.
Proof.
  revert b. induction a as [|x a IH]; intros [|y b] Heq.
  - done.
  - apply (f_equal String.length) in Heq.
    rewrite !length_append in Heq. simpl in Heq. lia.
  - apply (f_equal String.length) in Heq.
    rewrite !length_append in Heq. simpl in Heq. lia.
  - rewrite !append_cons in Heq. injection Heq as -> Heq. f_equal. by apply IH.
Qed.

End Names.

Section Ids.

Variable os_path_relpath : string -> string -> string.

Context `{Interpreter}.

Implicit Types (env : BuildEnvironment) (self : Directive) (evs : list host_event).

#[local] Abbreviation run := (AltairPlotDirective_run os_path_relpath).
#[local] Abbreviation run_event := (run_event os_path_relpath).
#[local] Abbreviation run_events := (run_events os_path_relpath).

Lemma plot_run_ids self env :
  ∃ p, descriptors (run self env).1 = [p]
    ∧ (run self env).1 ≫= node_ids = [target_id p; div_id p]
    ∧ div_id p
      = dashed_base (document_source self) +:+ "-altair-plot-"
        +:+ pretty (next_serial env)
    ∧ target_id p
      = dashed_base (document_source self) +:+ "-altair-source-"
        +:+ pretty (next_serial env).
Proof.
  unfold AltairPlotDirective_run; simpl.
  eexists; split; [by repeat case_bool_decide|].
  split; [by repeat case_bool_decide|]. done.
Qed.

Lemma container_id_parts (base1 base2 : string) (n1 n2 : nat) :
  base1 +:+ "-altair-plot-" +:+ pretty n1 = base2 +:+ "-altair-plot-" +:+ pretty n2
  ↔ n1 = n2 ∧ base1 = base2.
Proof.
  split; [|by intros [-> ->]].
  intros Heq.
  change "-altair-plot-" with ("-altair-plot" +:+ "-") in Heq.
  rewrite <-!append_assoc in Heq. rewrite !(append_assoc _ "-") in Heq.
  apply last_dash_unique in Heq as [Hbase Hnum]; [|apply dashless_pretty..].
  split; [by apply (inj pretty) in Hnum|by apply append_cancel_r in Hbase].
Qed.

Lemma anchor_container_differ (base1 base2 : string) (n1 n2 : nat) :
  base1 +:+ "-altair-source-" +:+ pretty n1
    ≠ base2 +:+ "-altair-plot-" +:+ pretty n2.
Proof.
  intros Heq.
  change "-altair-plot-" with ("-altair-plot" +:+ "-") in Heq.
  change "-altair-source-" with ("-altair-source" +:+ "-") in Heq.
  rewrite <-!append_assoc in Heq. rewrite !(append_assoc _ "-") in Heq.
  apply last_dash_unique in Heq as [Hbase _]; [|apply dashless_pretty..].
  apply (f_equal (Str.ends_with "e"%char)) in Hbase.
  rewrite !ends_with_append in Hbase by done. discriminate Hbase.
Qed.

(** X6: two plot blocks are given the same container id exactly when they
    are given the same number and the names of their source files are the
    same once the dots are dashes; the anchor id of a block is never the
    container id of a block. *)
Theorem container_id_collision self1 env1 self2 env2 :
  (div_id <$> descriptors (run self1 env1).1 = div_id <$> descriptors (run self2 env2).1
   ↔ next_serial env1 = next_serial env2
     ∧ dashed_base (document_source self1) = dashed_base (document_source self2))
  ∧ target_id <$> descriptors (run self1 env1).1
    ≠ div_id <$> descriptors (run self2 env2).1.
Proof.
  destruct (plot_run_ids self1 env1) as (p & -> & _ & Hp & Htp).
  destruct (plot_run_ids self2 env2) as (q & -> & _ & Hq & _).
  csimpl. rewrite Hp, Hq, Htp. split.
  - rewrite <-container_id_parts. split; [by intros [=]|by intros ->].
  - intros [= Heq]. by apply anchor_container_differ in Heq.
Qed.

(** X7: the file name made from the container id of a plot block has no
    path separator, so it is the last component of the path the HTML
    visitor writes, and it is the name the appended markup refers to. *)
Theorem artifact_name_plain self env (outdir : string) :
  ∃ p, descriptors (run self env).1 = [p]
    ∧ Str.mem PosixPath.sep (filename_of p) = false
    ∧ PosixPath.basename (dest_path_of outdir p) = filename_of p
    ∧ ∀ tr spec,
        chart_spec p = inr spec →
        body (html_visit_altair_plot p tr).2
          = body tr
            ++ [VGL_TEMPLATE_render (div_id p)
                  (PosixPath.basename (dest_path_of (builder_outdir tr) p))].
Proof.
  destruct (plot_run_ids self env) as (p & Hp & _ & Hid & _).
  exists p. split; [done|].
  assert (Hplain : Str.mem PosixPath.sep (filename_of p) = false).
  { unfold filename_of. rewrite Hid, !mem_append.
    unfold dashed_base. by rewrite mem_sep_dashed, mem_sep_basename, mem_sep_pretty. }
  assert (Hbase : ∀ dir, PosixPath.basename (dest_path_of dir p) = filename_of p).
  { intros dir. unfold dest_path_of. by apply basename_join. }
  split; [done|]. split; [done|].
  intros tr spec Hspec. rewrite html_visit_cases, Hspec, Hbase. done.
Qed.

End Ids.

(** *** Every id of a parse *)

Section AllIds.

Variable os_path_relpath : string -> string -> string.

Implicit Types (env : BuildEnvironment) (evs : list host_event).

#[local] Abbreviation run_event := (run_event os_path_relpath).
#[local] Abbreviation run_events := (run_events os_path_relpath).

Lemma numbered_id_serial (n1 n2 : nat) (id : string) :
  numbered_id n1 id → numbered_id n2 id → n1 = n2.
Proof.
  intros [a ->] [b Heq].
  apply last_dash_unique in Heq as [_ Heq]; [|apply dashless_pretty..].
  by apply (inj pretty) in Heq.
Qed.

Lemma event_ids ev env :
  NoDup ((run_event ev env).1 ≫= node_ids)
  ∧ Forall (numbered_id (next_serial env)) ((run_event ev env).1 ≫= node_ids).
Proof.
  destruct ev as [d self|d self|d].
  - split; [apply NoDup_singleton|]. repeat constructor. by exists "altair-plot".
  - destruct (plot_run_ids os_path_relpath self (set_docname d env))
      as (p & _ & Hids & Hdiv & Htarget).
    change (run_event (read_plot d self) env)
      with (AltairPlotDirective_run os_path_relpath self (set_docname d env)).
    change (next_serial (set_docname d env)) with (next_serial env) in Hdiv, Htarget.
    rewrite Hids. split.
    + apply NoDup_cons. split; [|apply NoDup_singleton].
      rewrite list_elem_of_singleton, Htarget, Hdiv. apply anchor_container_differ.
    + repeat constructor.
      * exists (dashed_base (document_source self) +:+ "-altair-source").
        rewrite Htarget, append_assoc. done.
      * exists (dashed_base (document_source self) +:+ "-altair-plot").
        rewrite Hdiv, append_assoc. done.
  - split; [apply NoDup_nil_2|constructor].
Qed.

Lemma all_ids_cons ev evs env :
  all_ids (run_events (ev :: evs) env).1
    = ((run_event ev env).1 ≫= node_ids)
      ++ all_ids (run_events evs (run_event ev env).2).1.
Proof.
  rewrite run_events_cons_nodes. unfold all_ids. rewrite bind_app. f_equal.
  destruct ev; simpl; by rewrite ?(right_id [] (++)).
Qed.

Lemma ids_of_run_events evs env :
  NoDup (all_ids (run_events evs env).1)
  ∧ Forall (fun id => ∃ n, next_serial env ≤ n < next_serial (run_events evs env).2
                           ∧ numbered_id n id)
      (all_ids (run_events evs env).1).
Proof.
  revert env. induction evs as [|ev evs IH]; intros env.
  { split; [apply NoDup_nil_2|constructor]. }
  destruct (IH (run_event ev env).2) as [Hnodup Hrange].
  destruct (event_ids ev env) as [Hev Hnum].
  pose proof (next_serial_run_event os_path_relpath ev env) as Hnext.
  pose proof (next_serial_run_events os_path_relpath evs (run_event ev env).2) as Hmono.
  rewrite all_ids_cons, run_events_cons_env.
  assert (Hstep : ∀ id, id ∈ (run_event ev env).1 ≫= node_ids →
                  next_serial (run_event ev env).2 = S (next_serial env)).
  { destruct ev; try done. by intros id ?%elem_of_nil. }
  assert (Hle : next_serial env ≤ next_serial (run_event ev env).2)
    by (rewrite Hnext; destruct ev; lia).
  rewrite Forall_forall in Hnum. split.
  - apply NoDup_app. split; [done|]. split; [|done].
    intros id Hin Hin'. rewrite Forall_forall in Hrange.
    destruct (Hrange _ Hin') as (n & Hn & Hid).
    pose proof (numbered_id_serial _ _ _ (Hnum _ Hin) Hid) as <-.
    rewrite (Hstep _ Hin) in Hn. lia.
  - apply Forall_app. split.
    + apply Forall_forall. intros id Hin.
      exists (next_serial env). split; [|by apply Hnum].
      rewrite (Hstep _ Hin) in Hmono. lia.
    + eapply Forall_impl; [exact Hrange|]. intros id (n & Hn & Hid).
      exists n. split; [lia|done].
Qed.

(** X8: over any parse, the ids of all the nodes the two directives return
    (the target of each setup block, the anchor of each plot block and the
    container id of each plot node) are pairwise distinct, the host handing
    out each number once. *)
Theorem all_ids_distinct evs env :
  NoDup (all_ids (run_events evs env).1).
Proof. apply ids_of_run_events. Qed.

End AllIds.

(** *** The setup code as lines *)

Section SetupLines.

Variable os_path_relpath : string -> string -> string.

Context `{Interpreter}.

Implicit Types (env : BuildEnvironment) (evs : list host_event) (doc : string).

#[local] Abbreviation run_event := (run_event os_path_relpath).
#[local] Abbreviation run_events := (run_events os_path_relpath).

Lemma join_cons (sep x : string) (l : list string) :
  l ≠ [] → Str.join sep (x :: l) = x +:+ sep +:+ Str.join sep l.
Proof. by destruct l. Qed.

Lemma join_app (sep : string) (l1 l2 : list string) :
  l1 ≠ [] → l2 ≠ [] →
  Str.join sep (l1 ++ l2) = Str.join sep l1 +:+ sep +:+ Str.join sep l2.
Proof.
  intros Hl1 Hl2. induction l1 as [|x l1 IH]; [done|].
  destruct l1 as [|y l1].
  - simpl app. by rewrite join_cons.
  - rewrite <-app_comm_cons, join_cons by done.
    rewrite IH by done. rewrite (join_cons sep x (y :: l1)) by done.
    by rewrite !append_assoc.
Qed.

Lemma same_text_snoc (codes lines block : list string) :
  block ≠ [] → same_text codes lines →
  same_text (codes ++ [Str.join Str.nl block]) (lines ++ block).
Proof.
  intros Hblock [[-> ->]|(Hcodes & Hlines & Heq)]; right.
  - split; [done|]. split; [done|]. done.
  - split; [by destruct codes|]. split; [by destruct lines|].
    rewrite !join_app by done. by rewrite Heq.
Qed.

Lemma same_text_live doc (codes lines : list string) evs :
  setup_blocks_nonempty doc evs → same_text codes lines →
  same_text (live_setup_codes doc codes evs) (live_setup_lines doc lines evs).
Proof.
  intros Hevs. revert codes lines.
  induction Hevs as [|ev evs Hev _ IH]; intros codes lines Hsame; [done|].
  destruct ev as [d self|d self|d]; simpl; apply IH.
  - case_decide; [|done]. apply same_text_snoc; [by apply Hev|done].
  - done.
  - case_decide; [by left|done].
Qed.

(** X9: when the registry holds nothing for a document and every setup
    block of the document has a line of content, the setup code of a plot
    block is the lines of the setup blocks read before it and not purged
    since, in order, one line each. *)
Theorem setup_code_is_setup_lines (pre : list host_event) doc (self : Directive) env :
  own_codes doc env = [] →
  setup_blocks_nonempty doc pre →
  setupcode <$> descriptors (run_event (read_plot doc self) (run_events pre env).2).1
    = [Str.join Str.nl (live_setup_lines doc [] pre)].
Proof.
  intros Hfresh Hpre.
  destruct (descriptors_plot_run os_path_relpath self
              (set_docname doc (run_events pre env).2)) as (p & Hp & Hsetup & _).
  change (run_event (read_plot doc self) (run_events pre env).2)
    with (AltairPlotDirective_run os_path_relpath self
            (set_docname doc (run_events pre env).2)).
  rewrite Hp. csimpl. f_equal. rewrite Hsetup.
  change (setup_code_for (docname (set_docname doc (run_events pre env).2))
            (set_docname doc (run_events pre env).2))
    with (Str.join Str.nl (own_codes doc (run_events pre env).2)).
  rewrite own_codes_run_events, Hfresh.
  destruct (same_text_live doc [] [] pre Hpre) as [[-> ->]|(_ & _ & Heq)];
    [by left|done|done].
Qed.

(** X10: a plot block read while no setup code of its document is live has
    an empty setup code, and the HTML visitor evaluates its plot code in two
    empty name mappings without a call of [exec]: what it raises and writes
    is decided by [exec_then_eval] and [to_dict] alone. *)
Theorem plot_without_setup (pre : list host_event) doc (self : Directive) env
    (tr : Translator) :
  live_setup_codes doc (own_codes doc env) pre = [] →
  ∃ p,
    descriptors (run_event (read_plot doc self) (run_events pre env).2).1 = [p]
    ∧ setupcode p = EmptyString
    ∧ html_visit_altair_plot p tr
      = match exec_then_eval (code p) empty_namespace empty_namespace with
        | inl e => (inl (Error e), tr)
        | inr chart =>
            match to_dict chart with
            | inl e => (inl (Error e), tr)
            | inr spec => (inl SkipNode, emitted p spec tr)
            end
        end.
Proof.
  intros Hlive.
  destruct (descriptors_plot_run os_path_relpath self
              (set_docname doc (run_events pre env).2)) as (p & Hp & Hsetup & _).
  exists p. split; [exact Hp|].
  assert (Hempty : setupcode p = EmptyString).
  { rewrite Hsetup.
    change (setup_code_for (docname (set_docname doc (run_events pre env).2))
              (set_docname doc (run_events pre env).2))
      with (Str.join Str.nl (own_codes doc (run_events pre env).2)).
    by rewrite own_codes_run_events, Hlive. }
  split; [done|].
  rewrite html_visit_cases. unfold chart_spec, setup_result. rewrite Hempty. simpl.
  destruct (exec_then_eval _ _ _) as [e|chart]; [done|].
  by destruct (to_dict chart).
Qed.

End SetupLines.

(** X9 at a document with two setup blocks, one of two lines. *)
Lemma setup_code_is_setup_lines_witness :
  setupcode <$> descriptors
    (run_event Demo.os_relpath (read_plot "index" Demo.plot_x)
       (run_events Demo.os_relpath
          [read_setup "index" (mk_directive ["import altair"; "x = 5"] 3 ∅
                                 "/src/index.rst");
           read_setup "other" Demo.setup_x;
           read_setup "index" (mk_directive ["y = 6"] 9 ∅ "/src/index.rst")]
          Demo.env0).2).1
  = ["import altair" +:+ Str.nl +:+ "x = 5" +:+ Str.nl +:+ "y = 6"].
Proof.
  refine (setup_code_is_setup_lines Demo.os_relpath
            [read_setup "index" (mk_directive ["import altair"; "x = 5"] 3 ∅
                                   "/src/index.rst");
             read_setup "other" Demo.setup_x;
             read_setup "index" (mk_directive ["y = 6"] 9 ∅ "/src/index.rst")]
            "index" Demo.plot_x Demo.env0 _ _).
  - reflexivity.
  - repeat constructor; intros _; discriminate.
Defined.

(** X10 at a document purged after its setup block was read. *)
Lemma plot_without_setup_witness :
  ∃ p,
    descriptors
      (run_event Demo.os_relpath (read_plot "index" Demo.plot_x)
         (run_events Demo.os_relpath
            [read_setup "index" Demo.setup_x; purge_doc "index"] Demo.env0).2).1
      = [p]
    ∧ setupcode p = EmptyString
    ∧ (html_visit_altair_plot (H := Demo.interpreter) p Demo.tr0).1
      = inl (Error (H := Demo.interpreter) (Demo.NameError "x")).
Proof.
  destruct (plot_without_setup (H := Demo.interpreter) Demo.os_relpath
              [read_setup "index" Demo.setup_x; purge_doc "index"]
              "index" Demo.plot_x Demo.env0 Demo.tr0 eq_refl)
    as (p & Hp & Hempty & Hvisit).
  exists p. split; [exact Hp|]. split; [exact Hempty|].
  rewrite Hvisit.
  assert (Hcode : code p = "chart(x)").
  { vm_compute in Hp. by injection Hp as <-. }
  rewrite Hcode. reflexivity.
Defined.

(** *** The HTML visitor and the state of the interpreter *)

Section InterpreterState.

Context `{Runtime}.

Implicit Types (node : altair_plot) (p q : Stateful.Process).

(** A visit evaluates the code in two empty name mappings and the state of
    the interpreter it finds, and then raises the exception or writes the
    file and the markup. *)
Lemma stateful_visit_cases node p :
  Stateful.html_visit_altair_plot node p =
    match Stateful.chart_spec node (Stateful.interpreter p) with
    | (inl e, w) =>
        (inl (Stateful.Error e), Stateful.mk_process (Stateful.translator p) w)
    | (inr spec, w) =>
        (inl Stateful.SkipNode,
         Stateful.mk_process
           (written node (rt_json_dumps (embed_object spec)) (Stateful.translator p)) w)
    end.
Proof.
  unfold Stateful.html_visit_altair_plot, Stateful.chart_spec, written.
  unfold mbind, Stateful.visit_bind, Stateful.call, Stateful.get, Stateful.on_disk,
    Stateful.body_append, Stateful.modify, Stateful.raise, mret, Stateful.visit_ret,
    dest_dir_of, dest_path_of, filename_of.
  destruct p as [tr w]. destruct (Str.truthy (setupcode node)); simpl.
  - destruct (rt_exec (setupcode node) rt_empty rt_empty w) as [[e|[g l]] w1];
      simpl; [done|].
    destruct (rt_exec_then_eval (code node) g l w1) as [[e|chart] w2];
      simpl; [done|].
    destruct (rt_to_dict chart w2) as [[e|spec] w3]; simpl; [done|].
    by destruct (Os.path_exists _ _); destruct tr.
  - destruct (rt_exec_then_eval (code node) rt_empty rt_empty w) as [[e|chart] w2];
      simpl; [done|].
    destruct (rt_to_dict chart w2) as [[e|spec] w3]; simpl; [done|].
    by destruct (Os.path_exists _ _); destruct tr.
Qed.










End InterpreterState.




(** The visitor over an interpreter without state of its own is the
    visitor with the state threaded, at a runtime that has none. *)
Lemma stateless_visit_agrees `{I : Interpreter} (node : altair_plot) (tr : Translator) :
  Stateful.html_visit_altair_plot (H := stateless I) node (Stateful.mk_process (H := stateless I) tr tt)
  = match html_visit_altair_plot node tr with
    | (inl SkipNode, tr') =>
        (inl Stateful.SkipNode, Stateful.mk_process (H := stateless I) tr' tt)
    | (inl (Error e), tr') =>
        (inl (Stateful.Error (H := stateless I) e), Stateful.mk_process (H := stateless I) tr' tt)
    | (inr u, tr') => (inr u, Stateful.mk_process (H := stateless I) tr' tt)
    end.
Proof.
  rewrite stateful_visit_cases, html_visit_cases.
  unfold Stateful.chart_spec, chart_spec, setup_result; simpl.
  destruct (Str.truthy (setupcode node)).
  - destruct (py_exec _ _ _) as [e|[g l]]; [done|].
    destruct (exec_then_eval _ g l) as [e|chart]; [done|].
    by destruct (to_dict chart).
  - destruct (exec_then_eval _ _ _) as [e|chart]; [done|].
    by destruct (to_dict chart).
Qed.
